(** * ESP_8_BIT_GFX: frame synchronisation and wait-time accounting

    A shallow embedding of [src/ESP_8_BIT_GFX.cpp].  The object's fields are
    32-bit unsigned integers, modelled as [Z] with the wrap-around of every
    addition and subtraction written out.  The member functions mutate the
    object, write to the log, call the video signal generator and may stop
    on an integer division by zero, so they live in a small monad that
    threads the object, collects the calls made to the outside and carries
    the fault. *)

From Stdlib Require Import ZArith List String Bool Lia.
Import ListNotations.
Open Scope Z_scope.

(** ** 32-bit unsigned arithmetic *)

Module UInt32.

Definition modulus : Z := 2 ^ 32.

Definition wrap (z : Z) : Z := z mod modulus.

(** [a + b] and [a - b] on [uint32_t]. *)
Definition add (a b : Z) : Z := wrap (a + b).
Definition sub (a b : Z) : Z := wrap (a - b).

Definition in_range (z : Z) : Prop := 0 <= z < modulus.

End UInt32.

(** The counter of the [for] loop is a [uint8_t]. *)
Definition wrap8 (z : Z) : Z := z mod 2 ^ 8.

(** ** The video signal generator, as the object sees it

    [ESP_8_BIT_composite] is an external collaborator.  The object reads two
    cumulative counters and the table of row pointers from it; a pointer is
    an address. *)

Definition LineArray : Type := Z -> Z.

Record ESP_8_BIT_composite : Type := mkVideo {
  getRenderedFrameCount : Z;
  getBufferSwapCount    : Z;
  getFrameBufferLines   : LineArray
}.

(** ** The object *)

Record ESP_8_BIT_GFX : Type := mkGFX {
  _copyAfterSwap : bool;
  _perfStart     : Z;
  _perfEnd       : Z;
  _waitTally     : Z;
  _frameStart    : Z;
  _swapStart     : Z
}.

Definition set_perfStart (x : Z) (g : ESP_8_BIT_GFX) : ESP_8_BIT_GFX :=
  mkGFX (_copyAfterSwap g) x (_perfEnd g) (_waitTally g)
        (_frameStart g) (_swapStart g).

Definition set_perfEnd (x : Z) (g : ESP_8_BIT_GFX) : ESP_8_BIT_GFX :=
  mkGFX (_copyAfterSwap g) (_perfStart g) x (_waitTally g)
        (_frameStart g) (_swapStart g).

Definition set_waitTally (x : Z) (g : ESP_8_BIT_GFX) : ESP_8_BIT_GFX :=
  mkGFX (_copyAfterSwap g) (_perfStart g) (_perfEnd g) x
        (_frameStart g) (_swapStart g).

Definition set_frameStart (x : Z) (g : ESP_8_BIT_GFX) : ESP_8_BIT_GFX :=
  mkGFX (_copyAfterSwap g) (_perfStart g) (_perfEnd g) (_waitTally g)
        x (_swapStart g).

Definition set_swapStart (x : Z) (g : ESP_8_BIT_GFX) : ESP_8_BIT_GFX :=
  mkGFX (_copyAfterSwap g) (_perfStart g) (_perfEnd g) (_waitTally g)
        (_frameStart g) x.

(** Every field holds a [uint32_t]. *)
Record fields_in_range (g : ESP_8_BIT_GFX) : Prop := mkRange {
  perfStart_range  : UInt32.in_range (_perfStart g);
  perfEnd_range    : UInt32.in_range (_perfEnd g);
  waitTally_range  : UInt32.in_range (_waitTally g);
  frameStart_range : UInt32.in_range (_frameStart g);
  swapStart_range  : UInt32.in_range (_swapStart g)
}.

(** The constructor sets the flag and three of the five counters; it leaves
    [_frameStart] and [_swapStart] as they were found in memory. *)
Definition ESP_8_BIT_GFX_new (frameStart0 swapStart0 : Z) : ESP_8_BIT_GFX :=
  mkGFX false 0 0 0 frameStart0 swapStart0.

(** ** Calls to the outside, faults, and the monad *)

Inductive Event : Type :=
| log_e (msg : string)
| log_i (fmt : string) (args : list Z)
| video_waitForFrame
| memcpy (dst src n : Z).

Inductive Fault : Type :=
| IntegerDivideByZero
| LoopOutOfFuel.

Inductive Result (A : Type) : Type :=
| Ok (a : A)
| Crash (f : Fault).

Arguments Ok {A} a.
Arguments Crash {A} f.

(** A computation on the object: the calls it made, in order, and either
    its value with the object afterwards or the fault that stopped it. *)
Definition M (A : Type) : Type :=
  ESP_8_BIT_GFX -> list Event * Result (A * ESP_8_BIT_GFX).

Definition ret {A} (a : A) : M A := fun g => ([], Ok (a, g)).

Definition bind {A B} (m : M A) (k : A -> M B) : M B :=
  fun g =>
    match m g with
    | (ev, Ok (a, g')) => let (ev', r) := k a g' in (ev ++ ev', r)
    | (ev, Crash f) => (ev, Crash f)
    end.

Definition get : M ESP_8_BIT_GFX := fun g => ([], Ok (g, g)).

Definition modify (f : ESP_8_BIT_GFX -> ESP_8_BIT_GFX) : M unit :=
  fun g => ([], Ok (tt, f g)).

Definition emit (e : Event) : M unit := fun g => ([e], Ok (tt, g)).

Definition crash {A} (f : Fault) : M A := fun _ => ([], Crash f).

Declare Scope gfx_scope.
Delimit Scope gfx_scope with gfx.
Notation "x <- c1 ;; c2" := (bind c1 (fun x => c2))
  (at level 61, c1 at next level, right associativity) : gfx_scope.
Notation "c1 ;; c2" := (bind c1 (fun _ => c2))
  (at level 61, right associativity) : gfx_scope.
Open Scope gfx_scope.

Definition events {A} (m : M A) (g : ESP_8_BIT_GFX) : list Event := fst (m g).
Definition outcome {A} (m : M A) (g : ESP_8_BIT_GFX) : Result (A * ESP_8_BIT_GFX) :=
  snd (m g).

(** [a / b] on [uint32_t]: the processor raises a fault when [b] is zero. *)
Definition udiv (a b : Z) : M Z :=
  if b =? 0 then crash IntegerDivideByZero else ret (a / b).

(** ** The member functions *)

(** [getWaitFraction], lines 171-177. *)
Definition getWaitFraction : M Z :=
  this <- get ;;
  if _perfEnd this >? UInt32.add (_perfStart this) 10000 then
    udiv (_waitTally this)
         (UInt32.sub (_perfEnd this) (_perfStart this) / 10000)
  else
    ret 10000.

(** [perfData], lines 92-114. *)
Definition perfData (video : ESP_8_BIT_composite) : M Z :=
  fraction <- getWaitFraction ;;
  this <- get ;;
  (if _perfEnd this <? _perfStart this then
     emit (log_e "Performance end time is earlier than start time.")
   else
     let duration := UInt32.sub (_perfEnd this) (_perfStart this) in
     if duration <? _waitTally this then
       emit (log_e "Overall time duration is less than tally of wait times.")
     else
       let frames := UInt32.sub (getRenderedFrameCount video) (_frameStart this) in
       let swaps := UInt32.sub (getBufferSwapCount video) (_swapStart this) in
       let wholePercent := fraction / 100 in
       let decimalPercent := fraction mod 100 in
       emit (log_i "Waited %d.%d%%, missed %d of %d frames"
                   [wholePercent; decimalPercent; UInt32.sub frames swaps; frames])) ;;
  modify (set_perfStart 0) ;;
  modify (set_perfEnd 0) ;;
  modify (set_waitTally 0) ;;
  ret fraction.

(** The loop of lines 146-148: [for (uint8_t chunk = 0; chunk < 15; chunk++)]
    with its body, from the current value of [chunk]. *)
Fixpoint copyChunks (fuel : nat) (chunk : Z)
    (newLineArray oldLineArray : LineArray) : M unit :=
  if chunk <? 15 then
    match fuel with
    | O => crash LoopOutOfFuel
    | S fuel' =>
        emit (memcpy (newLineArray (chunk * 16)) (oldLineArray (chunk * 16))
                     (256 * 16)) ;;
        copyChunks fuel' (wrap8 (chunk + 1)) newLineArray oldLineArray
    end
  else ret tt.

(** [waitForFrame] up to the blocking call, lines 124-136.  [waitStart] is
    the first reading of the cycle counter, [video] the signal generator as
    it is before the swap. *)
Definition waitForFrame_beforeSwap (waitStart : Z)
    (video : ESP_8_BIT_composite) : M unit :=
  this <- get ;;
  (if waitStart <? _perfEnd this then
     _ <- perfData video ;; ret tt
   else ret tt) ;;
  this <- get ;;
  if 0 =? _waitTally this then
    modify (set_perfStart waitStart) ;;
    modify (set_frameStart (getRenderedFrameCount video)) ;;
    modify (set_swapStart (getBufferSwapCount video))
  else ret tt.

(** [waitForFrame] after the blocking call, lines 141-162.  [waitEnd] is
    the second reading of the cycle counter, [video'] the signal generator
    after the swap. *)
Definition waitForFrame_afterSwap (oldLineArray : LineArray)
    (waitStart waitEnd : Z) (video' : ESP_8_BIT_composite) : M unit :=
  this <- get ;;
  (if _copyAfterSwap this then
     let newLineArray := getFrameBufferLines video' in
     copyChunks 256 0 newLineArray oldLineArray
   else ret tt) ;;
  if waitEnd <? waitStart then
    modify (set_perfEnd waitStart) ;;
    _ <- perfData video' ;; ret tt
  else
    this <- get ;;
    modify (set_waitTally (UInt32.add (_waitTally this)
                                      (UInt32.sub waitEnd waitStart))) ;;
    modify (set_perfEnd waitEnd).

(** [waitForFrame], lines 120-163. *)
Definition waitForFrame (waitStart waitEnd : Z)
    (video video' : ESP_8_BIT_composite) : M unit :=
  let oldLineArray := getFrameBufferLines video in
  waitForFrame_beforeSwap waitStart video ;;
  emit video_waitForFrame ;;
  waitForFrame_afterSwap oldLineArray waitStart waitEnd video'.

(** [newPerformanceTrackingSession], lines 188-190. *)
Definition newPerformanceTrackingSession (video : ESP_8_BIT_composite) : M Z :=
  perfData video.

(** ** Vocabulary of the statements *)

(** The guard of [getWaitFraction] and the divisor behind it. *)
Definition guard (g : ESP_8_BIT_GFX) : bool :=
  _perfEnd g >? UInt32.add (_perfStart g) 10000.

Definition divisor (g : ESP_8_BIT_GFX) : Z :=
  UInt32.sub (_perfEnd g) (_perfStart g) / 10000.

(** [getWaitFraction] reaches its division with a zero divisor. *)
Definition dividesByZero (g : ESP_8_BIT_GFX) : bool :=
  guard g && (divisor g =? 0).

(** The object as the last three assignments of [perfData] leave it. *)
Definition closed (g : ESP_8_BIT_GFX) : ESP_8_BIT_GFX :=
  set_waitTally 0 (set_perfEnd 0 (set_perfStart 0 g)).

(** The object as the three assignments of lines 133-135 leave it. *)
Definition opened (waitStart : Z) (video : ESP_8_BIT_composite)
    (g : ESP_8_BIT_GFX) : ESP_8_BIT_GFX :=
  set_swapStart (getBufferSwapCount video)
    (set_frameStart (getRenderedFrameCount video)
       (set_perfStart waitStart g)).

(** The line [perfData] writes to the log for the value [fraction]. *)
Definition report (video : ESP_8_BIT_composite) (g : ESP_8_BIT_GFX)
    (fraction : Z) : Event :=
  if _perfEnd g <? _perfStart g then
    log_e "Performance end time is earlier than start time."
  else if UInt32.sub (_perfEnd g) (_perfStart g) <? _waitTally g then
    log_e "Overall time duration is less than tally of wait times."
  else
    let frames := UInt32.sub (getRenderedFrameCount video) (_frameStart g) in
    let swaps := UInt32.sub (getBufferSwapCount video) (_swapStart g) in
    log_i "Waited %d.%d%%, missed %d of %d frames"
          [fraction / 100; fraction mod 100; UInt32.sub frames swaps; frames].

Definition is_memcpy (e : Event) : bool :=
  match e with memcpy _ _ _ => true | _ => false end.

Definition is_log_e (e : Event) : bool :=
  match e with log_e _ => true | _ => false end.

(** The copies among the calls, and the bytes they move. *)
Definition memcpys (ev : list Event) : list Event := filter is_memcpy ev.

Definition copied_bytes (ev : list Event) : Z :=
  fold_right (fun e acc => match e with memcpy _ _ n => n + acc | _ => acc end)
             0 ev.

(** Chunk [i] of the frame buffer: sixteen rows of 256 bytes, from the row
    the old table has at index [16 * i] to the row the new table has there. *)
Definition chunkCopy (newLineArray oldLineArray : LineArray) (i : Z) : Event :=
  memcpy (newLineArray (16 * i)) (oldLineArray (16 * i)) 4096.

Definition chunkIndices : list Z :=
  [0; 1; 2; 3; 4; 5; 6; 7; 8; 9; 10; 11; 12; 13; 14].

Definition frameCopy (newLineArray oldLineArray : LineArray) : list Event :=
  map (chunkCopy newLineArray oldLineArray) chunkIndices.

(** ** A run of the program without counter wrap-around

    A configuration holds the last value read from the cycle counter, the
    signal generator and the object.  The counter and the two counters of
    the signal generator never go down; the program calls [waitForFrame]
    and [perfData] in any order. *)

Record Config : Type := mkConfig {
  ccount : Z;
  video  : ESP_8_BIT_composite;
  gfx    : ESP_8_BIT_GFX
}.

Definition video_le (v v' : ESP_8_BIT_composite) : Prop :=
  getRenderedFrameCount v <= getRenderedFrameCount v' /\
  getBufferSwapCount v <= getBufferSwapCount v'.

Inductive step : Config -> Config -> Prop :=
| step_waitForFrame c waitStart waitEnd video' g' :
    ccount c <= waitStart -> waitStart <= waitEnd ->
    UInt32.in_range waitEnd ->
    video_le (video c) video' ->
    outcome (waitForFrame waitStart waitEnd (video c) video') (gfx c)
      = Ok (tt, g') ->
    step c (mkConfig waitEnd video' g')
| step_perfData c fraction g' :
    outcome (perfData (video c)) (gfx c) = Ok (fraction, g') ->
    step c (mkConfig (ccount c) (video c) g')
| step_idle c ccount' video' :
    ccount c <= ccount' -> UInt32.in_range ccount' ->
    video_le (video c) video' ->
    step c (mkConfig ccount' video' (gfx c)).

Inductive reachable : Config -> Prop :=
| reachable_new ccount0 video0 frameStart0 swapStart0 :
    UInt32.in_range ccount0 ->
    reachable (mkConfig ccount0 video0
                 (ESP_8_BIT_GFX_new frameStart0 swapStart0))
| reachable_step c c' : reachable c -> step c c' -> reachable c'.

(** What holds of the object all along such a run. *)
Record session_ok (c : Config) : Prop := mkSessionOk {
  ok_start_end : _perfStart (gfx c) <= _perfEnd (gfx c);
  ok_tally     : 0 <= _waitTally (gfx c) <= _perfEnd (gfx c) - _perfStart (gfx c);
  ok_start     : 0 <= _perfStart (gfx c);
  ok_end       : _perfEnd (gfx c) <= ccount c;
  ok_ccount    : ccount c < UInt32.modulus
}.

(** ** Sessions of several waits

    A drawing loop calls [waitForFrame] once per frame.  A [Wait] holds
    what one such call meets: the two readings of the cycle counter and the
    signal generator before and after the swap. *)

Record Wait : Type := mkWait {
  wStart  : Z;
  wEnd    : Z;
  wBefore : ESP_8_BIT_composite;
  wAfter  : ESP_8_BIT_composite
}.

Fixpoint waitForFrames (ws : list Wait) : M unit :=
  match ws with
  | [] => ret tt
  | w :: rest =>
      waitForFrame (wStart w) (wEnd w) (wBefore w) (wAfter w) ;;
      waitForFrames rest
  end.

(** The readings of the calls follow one another from [t] on, below the
    point where the counter wraps. *)
Fixpoint in_order (t : Z) (ws : list Wait) : Prop :=
  match ws with
  | [] => True
  | w :: rest =>
      t <= wStart w /\ wStart w <= wEnd w /\ wEnd w < UInt32.modulus /\
      in_order (wEnd w) rest
  end.

Fixpoint total_wait (ws : list Wait) : Z :=
  match ws with
  | [] => 0
  | w :: rest => (wEnd w - wStart w) + total_wait rest
  end.

Fixpoint last_end (t : Z) (ws : list Wait) : Z :=
  match ws with
  | [] => t
  | w :: rest => last_end (wEnd w) rest
  end.

(** The two counters of the signal generator are [uint32_t] as well. *)
Definition video_in_range (v : ESP_8_BIT_composite) : Prop :=
  UInt32.in_range (getRenderedFrameCount v) /\
  UInt32.in_range (getBufferSwapCount v).

(** The session did not start within the last 10000 cycles before the
    counter wraps. *)
Definition clear_of_wrap (g : ESP_8_BIT_GFX) : Prop :=
  fields_in_range g /\ _perfStart g < UInt32.modulus - 10000.

(** ** The frame buffer

    Memory maps an address to a byte.  [memcpy dst src n] on regions that
    do not overlap writes the [n] bytes found at [src] to [dst]; the other
    calls leave memory alone. *)

Definition Memory : Type := Z -> Z.

Definition do_memcpy (dst src n : Z) (m : Memory) : Memory :=
  fun a => if (dst <=? a) && (a <? dst + n) then m (src + (a - dst)) else m a.

Definition effect (m : Memory) (e : Event) : Memory :=
  match e with
  | memcpy dst src n => do_memcpy dst src n m
  | _ => m
  end.

Definition run_events (ev : list Event) (m : Memory) : Memory :=
  fold_left effect ev m.

(** The layout the loop of [waitForFrame] relies on: the 240 rows of 256
    bytes come in 15 chunks, the 16 rows of a chunk one after the other. *)
Definition chunked (lines : LineArray) : Prop :=
  forall i j, 0 <= i < 15 -> 0 <= j < 16 ->
    lines (16 * i + j) = lines (16 * i) + 256 * j.

(** No byte of a chunk of [lines] is a byte of a chunk of [lines']. *)
Definition chunks_apart (lines lines' : LineArray) : Prop :=
  forall i i' k k', 0 <= i < 15 -> 0 <= i' < 15 ->
    0 <= k < 4096 -> 0 <= k' < 4096 ->
    lines (16 * i) + k <> lines' (16 * i') + k'.

(** Two chunks of [lines] share no byte. *)
Definition chunks_distinct (lines : LineArray) : Prop :=
  forall i i' k k', 0 <= i < 15 -> 0 <= i' < 15 -> i <> i' ->
    0 <= k < 4096 -> 0 <= k' < 4096 ->
    lines (16 * i) + k <> lines (16 * i') + k'.

(** * Properties *)

(** ** Arithmetic on [uint32_t] *)

Lemma modulus_eq : UInt32.modulus = 4294967296.
Proof. reflexivity. Qed.

Lemma wrap_small z : UInt32.in_range z -> UInt32.wrap z = z.
Proof. unfold UInt32.in_range, UInt32.wrap. intros H. now apply Z.mod_small. Qed.

Lemma add_small a b : UInt32.in_range (a + b) -> UInt32.add a b = a + b.
Proof. apply wrap_small. Qed.

Lemma sub_small a b : UInt32.in_range (a - b) -> UInt32.sub a b = a - b.
Proof. apply wrap_small. Qed.

(** The sum overflows once. *)
Lemma add_overflow a b :
  UInt32.modulus <= a + b < 2 * UInt32.modulus ->
  UInt32.add a b = a + b - UInt32.modulus.
Proof.
  intros H. unfold UInt32.add, UInt32.wrap.
  symmetry. apply (Z.mod_unique (a + b) UInt32.modulus 1); lia.
Qed.

(** ** Running the member functions *)

Lemma getWaitFraction_run g :
  getWaitFraction g =
    if guard g then
      if divisor g =? 0 then ([], Crash IntegerDivideByZero)
      else ([], Ok (_waitTally g / divisor g, g))
    else ([], Ok (10000, g)).
Proof.
  unfold getWaitFraction, guard, divisor, bind, get, udiv, crash, ret.
  destruct (_perfEnd g >? _) ; [ destruct (_ =? 0) | ]; reflexivity.
Qed.

Lemma perfData_run video g :
  perfData video g =
    match getWaitFraction g with
    | (_, Ok (fraction, _)) => ([report video g fraction], Ok (fraction, closed g))
    | (_, Crash f) => ([], Crash f)
    end.
Proof.
  unfold perfData, bind at 1. rewrite getWaitFraction_run.
  destruct (guard g); [ destruct (divisor g =? 0) | ]; try reflexivity;
    unfold report, bind, get, emit, modify, ret, closed; cbn [fst snd];
    destruct (_perfEnd g <? _perfStart g); try reflexivity;
    destruct (_ <? _waitTally g); reflexivity.
Qed.

(** [perfData] stops exactly when [getWaitFraction] divides by zero, and
    before it has logged or assigned anything. *)
Lemma perfData_crash video g :
  dividesByZero g = true ->
  perfData video g = ([], Crash IntegerDivideByZero).
Proof.
  unfold dividesByZero. intros H. apply andb_prop in H as [Hg Hd].
  rewrite perfData_run, getWaitFraction_run, Hg, Hd. reflexivity.
Qed.

Lemma perfData_ok video g :
  dividesByZero g = false ->
  perfData video g =
    let fraction := if guard g then _waitTally g / divisor g else 10000 in
    ([report video g fraction], Ok (fraction, closed g)).
Proof.
  unfold dividesByZero. intros H.
  rewrite perfData_run, getWaitFraction_run.
  destruct (guard g); [ | reflexivity ].
  cbn in H. rewrite H. reflexivity.
Qed.

(** The copy loop, started at zero, ends after fifteen rounds whatever fuel
    is left over, and its calls are the fifteen chunk copies. *)
Lemma copyChunks_run spare newLineArray oldLineArray g :
  copyChunks (15 + spare) 0 newLineArray oldLineArray g =
    (frameCopy newLineArray oldLineArray, Ok (tt, g)).
Proof. destruct spare; reflexivity. Qed.

Lemma waitForFrame_beforeSwap_run waitStart video g :
  waitForFrame_beforeSwap waitStart video g =
    if waitStart <? _perfEnd g then
      match perfData video g with
      | (ev, Ok (_, g1)) => (ev, Ok (tt, opened waitStart video g1))
      | (ev, Crash f) => (ev, Crash f)
      end
    else if 0 =? _waitTally g then ([], Ok (tt, opened waitStart video g))
    else ([], Ok (tt, g)).
Proof.
  unfold waitForFrame_beforeSwap, bind at 1. cbn [get].
  destruct (waitStart <? _perfEnd g).
  - unfold bind at 1. unfold bind at 1. rewrite perfData_run, getWaitFraction_run.
    destruct (guard g); [ destruct (divisor g =? 0) | ]; reflexivity.
  - unfold bind, ret, get, modify. cbn -[Z.eqb].
    destruct (0 =? _waitTally g); reflexivity.
Qed.

Lemma waitForFrame_afterSwap_run oldLineArray waitStart waitEnd video' g :
  waitForFrame_afterSwap oldLineArray waitStart waitEnd video' g =
    let copies :=
      if _copyAfterSwap g
      then frameCopy (getFrameBufferLines video') oldLineArray else [] in
    if waitEnd <? waitStart then
      match perfData video' (set_perfEnd waitStart g) with
      | (ev, Ok (_, g1)) => (copies ++ ev, Ok (tt, g1))
      | (ev, Crash f) => (copies ++ ev, Crash f)
      end
    else
      (copies,
       Ok (tt, set_perfEnd waitEnd
                 (set_waitTally
                    (UInt32.add (_waitTally g) (UInt32.sub waitEnd waitStart))
                    g))).
Proof.
  unfold waitForFrame_afterSwap, bind at 1. cbn [get].
  unfold bind at 1.
  destruct (_copyAfterSwap g) eqn:Hflag.
  - change 256%nat with (15 + 241)%nat. rewrite copyChunks_run.
    destruct (waitEnd <? waitStart).
    + unfold bind, modify. cbn [fst snd].
      destruct (perfData video' (set_perfEnd waitStart g)) as [ev [[f g1]|f]];
        cbn; rewrite ?app_nil_r; reflexivity.
    + unfold bind, modify, get. cbn. reflexivity.
  - cbn [ret].
    destruct (waitEnd <? waitStart).
    + unfold bind, modify. cbn [fst snd].
      destruct (perfData video' (set_perfEnd waitStart g)) as [ev [[f g1]|f]];
        cbn; rewrite ?app_nil_r; reflexivity.
    + unfold bind, modify, get. cbn. reflexivity.
Qed.

Lemma waitForFrame_run waitStart waitEnd video video' g :
  waitForFrame waitStart waitEnd video video' g =
    match waitForFrame_beforeSwap waitStart video g with
    | (ev, Ok (_, g1)) =>
        let (ev', r) :=
          waitForFrame_afterSwap (getFrameBufferLines video)
                                 waitStart waitEnd video' g1 in
        (ev ++ video_waitForFrame :: ev', r)
    | (ev, Crash f) => (ev, Crash f)
    end.
Proof.
  unfold waitForFrame, bind at 1.
  destruct (waitForFrame_beforeSwap waitStart video g) as [ev [[u g1]|f]];
    [ | reflexivity ].
  unfold bind, emit.
  destruct (waitForFrame_afterSwap _ _ _ _ g1) as [ev' r]. reflexivity.
Qed.

(** ** The wait fraction *)

(** A session longer than 10000 cycles, counter not wrapped: the guard of
    [getWaitFraction] holds, no subtraction wraps, the divisor is positive. *)
Lemma long_session g :
  fields_in_range g ->
  10000 < _perfEnd g - _perfStart g ->
  guard g = true /\
  divisor g = (_perfEnd g - _perfStart g) / 10000 /\
  1 <= divisor g.
Proof.
  intros [[Hs0 Hs1] [He0 He1] _ _ _] Hlong. unfold guard, divisor.
  rewrite add_small, sub_small by (unfold UInt32.in_range; lia).
  repeat split.
  - apply Z.gtb_lt. lia.
  - apply Z.div_le_lower_bound; lia.
Qed.

(** The validity checks of [perfData] pass: it logs the information line. *)
Lemma report_valid video g fraction :
  0 <= _perfStart g -> _perfEnd g < UInt32.modulus ->
  _perfStart g <= _perfEnd g ->
  _waitTally g <= _perfEnd g - _perfStart g ->
  report video g fraction =
    let frames := UInt32.sub (getRenderedFrameCount video) (_frameStart g) in
    let swaps := UInt32.sub (getBufferSwapCount video) (_swapStart g) in
    log_i "Waited %d.%d%%, missed %d of %d frames"
          [fraction / 100; fraction mod 100; UInt32.sub frames swaps; frames].
Proof.
  intros Hs0 He1 Hse Htally. unfold report.
  rewrite sub_small by (unfold UInt32.in_range; lia).
  destruct (Z.ltb_spec (_perfEnd g) (_perfStart g)); [ lia | ].
  destruct (Z.ltb_spec (_perfEnd g - _perfStart g) (_waitTally g)); [ lia | ].
  reflexivity.
Qed.

(** C1.  For every object whose fields are 32-bit values with
    [0 <= waitTally <= elapsed] and [elapsed = perfEnd - perfStart > 10000],
    [perfData] returns [waitTally / (elapsed / 10000)] with floor division,
    computed from the fields as they are on entry; on return the three
    counters of the session are zero, and the log holds the information line
    for that value. *)
Theorem perfData_long_session video g :
  fields_in_range g ->
  0 <= _waitTally g <= _perfEnd g - _perfStart g ->
  10000 < _perfEnd g - _perfStart g ->
  outcome (perfData video) g =
    Ok (_waitTally g / ((_perfEnd g - _perfStart g) / 10000), closed g) /\
  _perfStart (closed g) = 0 /\ _perfEnd (closed g) = 0 /\
  _waitTally (closed g) = 0 /\
  events (perfData video) g =
    [report video g (_waitTally g / ((_perfEnd g - _perfStart g) / 10000))] /\
  is_log_e (report video g
              (_waitTally g / ((_perfEnd g - _perfStart g) / 10000))) = false.
Proof.
  intros Hrange Htally Hlong.
  destruct (long_session g Hrange Hlong) as (Hguard & Hdiv & Hpos).
  assert (Hok : dividesByZero g = false).
  { unfold dividesByZero. rewrite Hguard. cbn.
    apply Z.eqb_neq. lia. }
  unfold outcome, events. rewrite (perfData_ok video g Hok).
  rewrite Hguard, Hdiv. cbn [fst snd].
  repeat split.
  destruct Hrange as [[Hs0 Hs1] [He0 He1] _ _ _].
  rewrite report_valid by lia. reflexivity.
Qed.

(** The scenario of a session of 100000 cycles of which 30000 were spent
    waiting: 3000, that is 30.00%. *)
Lemma perfData_long_session_witness :
  outcome (perfData (mkVideo 12 10 (fun i => 256 * i)))
          (mkGFX false 0 100000 30000 2 1) =
    Ok (3000, mkGFX false 0 0 0 2 1).
Proof.
  refine (proj1 (perfData_long_session (mkVideo 12 10 (fun i => 256 * i))
                   (mkGFX false 0 100000 30000 2 1) _ _ _)).
  - constructor; unfold UInt32.in_range, UInt32.modulus; simpl; lia.
  - simpl; lia.
  - simpl; lia.
Defined.

(** C2.  The object a first call [waitForFrame] leaves when the counter
    reads 0 before the wait and 19999 after it has
    [0 <= waitTally <= perfEnd - perfStart], and [perfData] returns 19999
    for it: the divisor [19999 / 10000] is rounded down to 1.  The value
    is above the 10000 the documentation of [perfData] gives as its upper
    end. *)
Theorem perfData_above_10000 video video' frameStart0 swapStart0 :
  let g := set_waitTally 19999 (set_perfEnd 19999
             (opened 0 video (ESP_8_BIT_GFX_new frameStart0 swapStart0))) in
  outcome (waitForFrame 0 19999 video video')
          (ESP_8_BIT_GFX_new frameStart0 swapStart0) = Ok (tt, g) /\
  0 <= _waitTally g <= _perfEnd g - _perfStart g /\
  outcome (perfData video') g = Ok (19999, closed g) /\
  10000 < 19999.
Proof.
  cbn zeta. repeat apply conj; try reflexivity; cbn; lia.
Qed.

(** C3.  The object a first call [waitForFrame] leaves when the counter
    reads [2^32 - 5000] before the wait and [2^32 - 1] after it has
    [perfEnd >= perfStart] and [elapsed = 4999 <= 10000].  In the guard of
    [getWaitFraction] the sum [perfStart + 10000] wraps to 5000, the guard
    holds, the divisor is [4999 / 10000 = 0], and [perfData] stops on the
    division instead of returning 10000. *)
Theorem perfData_short_session_divides_by_zero
    video video' frameStart0 swapStart0 :
  let g := set_waitTally 4999 (set_perfEnd 4294967295
             (opened 4294962296 video
                (ESP_8_BIT_GFX_new frameStart0 swapStart0))) in
  outcome (waitForFrame 4294962296 4294967295 video video')
          (ESP_8_BIT_GFX_new frameStart0 swapStart0) = Ok (tt, g) /\
  _perfStart g <= _perfEnd g /\
  _perfEnd g - _perfStart g <= 10000 /\
  UInt32.add (_perfStart g) 10000 = 5000 /\
  guard g = true /\ divisor g = 0 /\
  perfData video' g = ([], Crash IntegerDivideByZero).
Proof.
  cbn zeta. repeat apply conj; try reflexivity; cbn; lia.
Qed.

(** X6.  Where the sum in the guard does not wrap
    ([perfStart <= 2^32 - 10001]), a session of at most 10000 cycles whose
    end is not before its start gets the conventional 10000 from
    [perfData], which leaves the three counters zero. *)
Lemma perfData_short_session video g :
  fields_in_range g ->
  _perfStart g <= UInt32.modulus - 10001 ->
  _perfStart g <= _perfEnd g ->
  _perfEnd g - _perfStart g <= 10000 ->
  outcome (perfData video) g = Ok (10000, closed g).
Proof.
  intros [[Hs0 Hs1] [He0 He1] _ _ _] Hnowrap Hse Hshort.
  assert (Hguard : guard g = false).
  { unfold guard. rewrite add_small by (unfold UInt32.in_range; lia).
    destruct (Z.gtb_spec (_perfEnd g) (_perfStart g + 10000)); [ lia | easy ]. }
  unfold outcome. rewrite perfData_ok by (unfold dividesByZero; now rewrite Hguard).
  rewrite Hguard. reflexivity.
Qed.

(** ** Counter wrap-around in [waitForFrame] *)

(** The counter wrapped during the wait and the close-out does not divide
    by zero: nothing is added to the tally, [perfData] sees
    [perfEnd = waitStart], and the session is closed on return. *)
Lemma waitForFrame_wrapped_during_wait waitStart waitEnd video video' g g1 ev :
  waitForFrame_beforeSwap waitStart video g = (ev, Ok (tt, g1)) ->
  waitEnd < waitStart ->
  dividesByZero (set_perfEnd waitStart g1) = false ->
  outcome (waitForFrame waitStart waitEnd video video') g =
    Ok (tt, closed (set_perfEnd waitStart g1)) /\
  _waitTally (set_perfEnd waitStart g1) = _waitTally g1.
Proof.
  intros Hbefore Hwrap Hok. split; [ | reflexivity ].
  unfold outcome.
  rewrite waitForFrame_run, Hbefore, waitForFrame_afterSwap_run.
  cbn zeta. apply Z.ltb_lt in Hwrap. rewrite Hwrap.
  rewrite (perfData_ok _ _ Hok). reflexivity.
Qed.

(** C4.  On a new object, with the counter at [2^32 - 1] before the wait
    and at 0 after it, [waitForFrame] opens the session at
    [perfStart = 2^32 - 1], sets [perfEnd = 2^32 - 1] and calls [perfData];
    there the guard of [getWaitFraction] compares [perfEnd] with the wrapped
    sum 9999, holds, and the division [0 / (0 / 10000)] stops the call after
    the swap.  It does not return with an empty session. *)
Theorem waitForFrame_wrapped_during_wait_divides_by_zero
    video video' frameStart0 swapStart0 :
  let g := ESP_8_BIT_GFX_new frameStart0 swapStart0 in
  0 < 4294967295 /\
  waitForFrame_beforeSwap 4294967295 video g =
    ([], Ok (tt, opened 4294967295 video g)) /\
  guard (set_perfEnd 4294967295 (opened 4294967295 video g)) = true /\
  divisor (set_perfEnd 4294967295 (opened 4294967295 video g)) = 0 /\
  waitForFrame 4294967295 0 video video' g =
    ([video_waitForFrame], Crash IntegerDivideByZero).
Proof.
  cbn zeta. split; [ lia | ]. repeat apply conj; reflexivity.
Qed.

(** The stale session can be closed without dividing by zero: [perfData]
    closes it, the tally is zero afterwards, and the new session is opened
    at [waitStart] with the counters of the signal generator, with nothing
    else done before the wait. *)
Lemma waitForFrame_stale_session waitStart video g :
  waitStart < _perfEnd g ->
  dividesByZero g = false ->
  exists fraction,
    waitForFrame_beforeSwap waitStart video g =
      ([report video g fraction], Ok (tt, opened waitStart video (closed g))).
Proof.
  intros Hstale Hok. rewrite waitForFrame_beforeSwap_run.
  apply Z.ltb_lt in Hstale. rewrite Hstale, (perfData_ok _ _ Hok).
  eexists. reflexivity.
Qed.

(** C5.  The object of a session opened at [2^32 - 5000] and last updated
    at [2^32 - 1] is stale for a call that reads 100 from the counter.
    [waitForFrame] calls [perfData] on it, which stops on the division by
    zero of [getWaitFraction]: no session is opened and the blocking wait is
    not reached. *)
Theorem waitForFrame_stale_session_divides_by_zero
    waitEnd video0 video video' frameStart0 swapStart0 :
  let g := set_waitTally 4999 (set_perfEnd 4294967295
             (opened 4294962296 video0
                (ESP_8_BIT_GFX_new frameStart0 swapStart0))) in
  outcome (waitForFrame 4294962296 4294967295 video0 video)
          (ESP_8_BIT_GFX_new frameStart0 swapStart0) = Ok (tt, g) /\
  100 < _perfEnd g /\
  dividesByZero g = true /\
  waitForFrame_beforeSwap 100 video g = ([], Crash IntegerDivideByZero) /\
  waitForFrame 100 waitEnd video video' g = ([], Crash IntegerDivideByZero).
Proof.
  cbn zeta. split; [ reflexivity | ]. split; [ cbn; lia | ].
  repeat apply conj; reflexivity.
Qed.

(** ** What [perfData] resets *)

(** C6, as stated, does not hold: [perfData] does not leave every field of
    the session zero.  On the object below, a session of 50000 cycles
    opened when the signal generator had rendered 7 frames and swapped 5
    buffers, it returns 4000 and the two snapshots still hold 7 and 5. *)
Lemma perfData_keeps_snapshots :
  ~ (forall video g fraction g',
       outcome (perfData video) g = Ok (fraction, g') ->
       _perfStart g' = 0 /\ _perfEnd g' = 0 /\ _waitTally g' = 0 /\
       _frameStart g' = 0 /\ _swapStart g' = 0).
Proof.
  intros H.
  specialize (H (mkVideo 9 6 (fun i => 256 * i))
                (mkGFX false 1000 51000 20000 7 5)
                4000 (mkGFX false 0 0 0 7 5) eq_refl).
  cbn in H. lia.
Qed.

(** C6, amended.  Whenever [getWaitFraction] does not divide by zero,
    [perfData] returns, on each of the three paths of its validity checks
    (the line it logs is [report]), with [_perfStart], [_perfEnd] and
    [_waitTally] zero and the two snapshots and the flag as they were.
    The next [waitForFrame] finds the tally zero and, before the wait,
    starts a session: it overwrites [_perfStart] with its counter reading
    and the two snapshots with the counters of the signal generator. *)
Theorem perfData_closes_session video g :
  dividesByZero g = false ->
  (exists fraction,
     perfData video g = ([report video g fraction], Ok (fraction, closed g))) /\
  _perfStart (closed g) = 0 /\ _perfEnd (closed g) = 0 /\
  _waitTally (closed g) = 0 /\
  _frameStart (closed g) = _frameStart g /\
  _swapStart (closed g) = _swapStart g /\
  _copyAfterSwap (closed g) = _copyAfterSwap g /\
  forall waitStart video1,
    0 <= waitStart ->
    waitForFrame_beforeSwap waitStart video1 (closed g) =
      ([], Ok (tt, opened waitStart video1 (closed g))) /\
    _perfStart (opened waitStart video1 (closed g)) = waitStart /\
    _frameStart (opened waitStart video1 (closed g)) =
      getRenderedFrameCount video1 /\
    _swapStart (opened waitStart video1 (closed g)) =
      getBufferSwapCount video1.
Proof.
  intros Hok. split.
  { rewrite (perfData_ok _ _ Hok). eexists. reflexivity. }
  repeat split.
  rewrite waitForFrame_beforeSwap_run. cbn [closed set_waitTally set_perfEnd
    set_perfStart _perfEnd _waitTally].
  destruct (Z.ltb_spec waitStart 0); [ lia | reflexivity ].
Qed.

(** An object that fails the first validity check: the end of the session
    lies before its start. *)
Lemma perfData_closes_session_witness :
  exists fraction,
    perfData (mkVideo 9 6 (fun i => 256 * i)) (mkGFX true 500 100 3 7 5) =
      ([report (mkVideo 9 6 (fun i => 256 * i)) (mkGFX true 500 100 3 7 5)
               fraction],
       Ok (fraction, closed (mkGFX true 500 100 3 7 5))).
Proof.
  exact (proj1 (perfData_closes_session (mkVideo 9 6 (fun i => 256 * i))
                  (mkGFX true 500 100 3 7 5) eq_refl)).
Defined.

(** ** The copy after the swap *)

Lemma report_is_log video g fraction :
  is_memcpy (report video g fraction) = false /\
  report video g fraction <> video_waitForFrame.
Proof.
  unfold report.
  destruct (_perfEnd g <? _perfStart g); [ split; [ reflexivity | discriminate ] | ].
  destruct (_ <? _waitTally g); split; (reflexivity || discriminate).
Qed.

(** [perfData] logs at most one line. *)
Lemma perfData_events video g :
  events (perfData video) g = [] \/
  exists fraction, events (perfData video) g = [report video g fraction].
Proof.
  unfold events. destruct (dividesByZero g) eqn:H.
  - left. now rewrite perfData_crash.
  - right. rewrite perfData_ok by assumption. eexists. reflexivity.
Qed.

Lemma perfData_flag video g ev fraction g1 :
  perfData video g = (ev, Ok (fraction, g1)) ->
  _copyAfterSwap g1 = _copyAfterSwap g.
Proof.
  destruct (dividesByZero g) eqn:H.
  - rewrite perfData_crash by assumption. discriminate.
  - rewrite perfData_ok by assumption. intros [= _ _ <-]. reflexivity.
Qed.

(** Up to the blocking call [waitForFrame] logs at most one line, copies
    nothing, and leaves the flag alone. *)
Lemma waitForFrame_beforeSwap_events waitStart video g :
  let ev := fst (waitForFrame_beforeSwap waitStart video g) in
  memcpys ev = [] /\ ~ In video_waitForFrame ev.
Proof.
  cbn zeta. rewrite waitForFrame_beforeSwap_run.
  destruct (waitStart <? _perfEnd g).
  - destruct (dividesByZero g) eqn:H.
    + rewrite perfData_crash by assumption. cbn. tauto.
    + rewrite perfData_ok by assumption. cbn.
      destruct (report_is_log video g
                  (if guard g then _waitTally g / divisor g else 10000))
        as [-> Hneq].
      split; [ reflexivity | ]. intros [Heq | []]. now apply Hneq.
  - destruct (0 =? _waitTally g); cbn; tauto.
Qed.

Lemma waitForFrame_beforeSwap_flag waitStart video g ev u g1 :
  waitForFrame_beforeSwap waitStart video g = (ev, Ok (u, g1)) ->
  _copyAfterSwap g1 = _copyAfterSwap g.
Proof.
  rewrite waitForFrame_beforeSwap_run.
  destruct (waitStart <? _perfEnd g).
  - destruct (perfData video g) as [ev0 [[fraction g0]|f]] eqn:Hperf;
      [ | discriminate ].
    intros [= _ _ <-]. cbn. exact (perfData_flag _ _ _ _ _ Hperf).
  - destruct (0 =? _waitTally g); intros [= _ _ <-]; reflexivity.
Qed.

(** After the blocking call come the copies, if the flag is set, and then
    at most one line in the log. *)
Lemma waitForFrame_afterSwap_events oldLineArray waitStart waitEnd video' g :
  exists after,
    fst (waitForFrame_afterSwap oldLineArray waitStart waitEnd video' g) =
      (if _copyAfterSwap g
       then frameCopy (getFrameBufferLines video') oldLineArray else [])
      ++ after /\
    memcpys after = [].
Proof.
  rewrite waitForFrame_afterSwap_run. cbn zeta.
  destruct (waitEnd <? waitStart).
  - pose proof (perfData_events video' (set_perfEnd waitStart g)) as Hev.
    unfold events in Hev.
    destruct (perfData video' (set_perfEnd waitStart g)) as [ev [[fraction g1]|f]];
      cbn [fst] in *; exists ev; (split; [ reflexivity | ]);
      destruct Hev as [-> | [fr ->]]; try reflexivity;
      cbn; now destruct (report_is_log video' (set_perfEnd waitStart g) fr) as [-> _].
  - exists []. cbn [fst]. now rewrite app_nil_r.
Qed.

Lemma memcpys_app ev ev' : memcpys (ev ++ ev') = memcpys ev ++ memcpys ev'.
Proof. apply filter_app. Qed.

Lemma memcpys_frameCopy newLineArray oldLineArray :
  memcpys (frameCopy newLineArray oldLineArray) =
    frameCopy newLineArray oldLineArray.
Proof. reflexivity. Qed.

(** C7.  In every call [waitForFrame] that gets to the blocking call with
    the flag set, the calls made after it start with the copies of the
    fifteen chunks, and there is no other copy in the call: chunk [i], for
    [i] from 0 to 14, is 4096 bytes from the row at index [16 * i] of the
    table read before the swap to the row at that index of the table read
    after it, 61440 bytes in all.  With the flag clear the call copies
    nothing. *)
Theorem waitForFrame_copies waitStart waitEnd video video' g :
  let oldLineArray := getFrameBufferLines video in
  let newLineArray := getFrameBufferLines video' in
  let ev := events (waitForFrame waitStart waitEnd video video') g in
  (_copyAfterSwap g = true -> In video_waitForFrame ev ->
   exists before after,
     ev = before ++ video_waitForFrame
                 :: frameCopy newLineArray oldLineArray ++ after /\
     memcpys before = [] /\ memcpys after = [] /\
     memcpys ev = frameCopy newLineArray oldLineArray) /\
  (_copyAfterSwap g = false -> memcpys ev = []) /\
  List.length (frameCopy newLineArray oldLineArray) = 15%nat /\
  (forall i, 0 <= i < 15 ->
     nth_error (frameCopy newLineArray oldLineArray) (Z.to_nat i) =
       Some (memcpy (newLineArray (16 * i)) (oldLineArray (16 * i)) (16 * 256))) /\
  copied_bytes (frameCopy newLineArray oldLineArray) = 61440.
Proof.
  cbn zeta. unfold events. rewrite waitForFrame_run.
  pose proof (waitForFrame_beforeSwap_events waitStart video g) as [Hnocopy Hnowait].
  cbn zeta in Hnocopy, Hnowait.
  destruct (waitForFrame_beforeSwap waitStart video g) as [before [[u g1]|f]] eqn:Hbefore;
    cbn [fst] in Hnocopy, Hnowait.
  - pose proof (waitForFrame_beforeSwap_flag _ _ _ _ _ _ Hbefore) as Hflag.
    destruct (waitForFrame_afterSwap_events (getFrameBufferLines video)
                waitStart waitEnd video' g1) as (after & Hafter & Hafter0).
    destruct (waitForFrame_afterSwap _ _ _ _ g1) as [ev' r].
    cbn [fst] in Hafter |- *. subst ev'. rewrite Hflag.
    split; [ | split ].
    + intros -> _. exists before, after.
      repeat split; try assumption.
      change (before ++ video_waitForFrame :: ?l)
        with (before ++ [video_waitForFrame] ++ l).
      rewrite !memcpys_app, Hnocopy, Hafter0, memcpys_frameCopy.
      cbn [memcpys filter is_memcpy app]. apply app_nil_r.
    + intros ->.
      change (before ++ video_waitForFrame :: ?l)
        with (before ++ [video_waitForFrame] ++ l).
      rewrite !memcpys_app, Hnocopy, Hafter0. reflexivity.
    + split; [ reflexivity | split; [ | reflexivity ] ].
      intros i Hi.
      assert (Hcases : i = 0 \/ i = 1 \/ i = 2 \/ i = 3 \/ i = 4 \/ i = 5 \/
                       i = 6 \/ i = 7 \/ i = 8 \/ i = 9 \/ i = 10 \/
                       i = 11 \/ i = 12 \/ i = 13 \/ i = 14) by lia.
      repeat (destruct Hcases as [-> | Hcases]); try subst i; reflexivity.
  - split; [ | split ].
    + intros _ Hin. now apply Hnowait in Hin.
    + intros _. exact Hnocopy.
    + split; [ reflexivity | split; [ | reflexivity ] ].
      intros i Hi.
      assert (Hcases : i = 0 \/ i = 1 \/ i = 2 \/ i = 3 \/ i = 4 \/ i = 5 \/
                       i = 6 \/ i = 7 \/ i = 8 \/ i = 9 \/ i = 10 \/
                       i = 11 \/ i = 12 \/ i = 13 \/ i = 14) by lia.
      repeat (destruct Hcases as [-> | Hcases]); try subst i; reflexivity.
Qed.

(** A call with the flag set that gets to the blocking call, and one with
    the flag clear. *)
Lemma waitForFrame_copies_witness :
  memcpys (events (waitForFrame 100 5000
                     (mkVideo 3 2 (fun i => 1000000 + 256 * i))
                     (mkVideo 4 3 (fun i => 2000000 + 256 * i)))
                  (mkGFX true 0 0 0 0 0)) =
    frameCopy (fun i => 2000000 + 256 * i) (fun i => 1000000 + 256 * i) /\
  memcpys (events (waitForFrame 100 5000
                     (mkVideo 3 2 (fun i => 1000000 + 256 * i))
                     (mkVideo 4 3 (fun i => 2000000 + 256 * i)))
                  (mkGFX false 0 0 0 0 0)) = [].
Proof.
  split.
  - destruct (proj1 (waitForFrame_copies 100 5000
                       (mkVideo 3 2 (fun i => 1000000 + 256 * i))
                       (mkVideo 4 3 (fun i => 2000000 + 256 * i))
                       (mkGFX true 0 0 0 0 0)) eq_refl)
      as (before & after & _ & _ & _ & H).
    + simpl. left. reflexivity.
    + exact H.
  - exact (proj1 (proj2 (waitForFrame_copies 100 5000
                           (mkVideo 3 2 (fun i => 1000000 + 256 * i))
                           (mkVideo 4 3 (fun i => 2000000 + 256 * i))
                           (mkGFX false 0 0 0 0 0))) eq_refl).
Defined.

(** ** Starting a new session by hand *)

(** C8.  On every object [newPerformanceTrackingSession] is [perfData]:
    the same line in the log, the same value returned and the same object
    left behind, or the same fault. *)
Theorem newPerformanceTrackingSession_perfData video g :
  newPerformanceTrackingSession video g = perfData video g /\
  events (newPerformanceTrackingSession video) g = events (perfData video) g /\
  outcome (newPerformanceTrackingSession video) g = outcome (perfData video) g.
Proof. repeat apply conj; reflexivity. Qed.

(** ** The divisor of [getWaitFraction] *)

(** C9.  Take an object with 32-bit fields and [perfEnd >= perfStart].
    If [perfStart <= 2^32 - 10001], the sum in the guard does not wrap and,
    whenever the guard holds, the divisor is at least 1 and the division is
    carried out.  If [perfStart > 2^32 - 10001], the sum wraps, the guard
    holds although fewer than 10000 cycles have elapsed, the divisor is 0
    and [getWaitFraction] stops on the division. *)
Theorem getWaitFraction_divisor g :
  fields_in_range g ->
  _perfStart g <= _perfEnd g ->
  (_perfStart g <= 2 ^ 32 - 10001 ->
     UInt32.add (_perfStart g) 10000 = _perfStart g + 10000 /\
     (guard g = true ->
        1 <= divisor g /\
        outcome getWaitFraction g = Ok (_waitTally g / divisor g, g))) /\
  (2 ^ 32 - 10001 < _perfStart g ->
     UInt32.add (_perfStart g) 10000 = _perfStart g + 10000 - 2 ^ 32 /\
     guard g = true /\
     _perfEnd g - _perfStart g < 10000 /\
     divisor g = 0 /\
     outcome getWaitFraction g = Crash IntegerDivideByZero).
Proof.
  intros Hrange Hse.
  pose proof Hrange as [[Hs0 Hs1] [He0 He1] _ _ _].
  pose proof modulus_eq as Hmod.
  change (2 ^ 32) with UInt32.modulus.
  split.
  - intros Hnowrap.
    assert (Hadd : UInt32.add (_perfStart g) 10000 = _perfStart g + 10000)
      by (apply add_small; unfold UInt32.in_range; lia).
    split; [ exact Hadd | ].
    intros Hguard.
    assert (Hlong : 10000 < _perfEnd g - _perfStart g).
    { unfold guard in Hguard. rewrite Hadd in Hguard.
      apply Z.gtb_lt in Hguard. lia. }
    destruct (long_session g Hrange Hlong) as (_ & Hdiv & Hpos).
    split; [ exact Hpos | ].
    unfold outcome. rewrite getWaitFraction_run, Hguard.
    destruct (Z.eqb_spec (divisor g) 0); [ lia | reflexivity ].
  - intros Hwrap.
    assert (Hadd : UInt32.add (_perfStart g) 10000 =
                   _perfStart g + 10000 - UInt32.modulus)
      by (apply add_overflow; lia).
    assert (Hguard : guard g = true).
    { unfold guard. rewrite Hadd. apply Z.gtb_lt. lia. }
    assert (Hdiv : divisor g = 0).
    { unfold divisor. rewrite sub_small by (unfold UInt32.in_range; lia).
      apply Z.div_small. lia. }
    repeat split; try assumption; try lia.
    unfold outcome. rewrite getWaitFraction_run, Hguard, Hdiv. reflexivity.
Qed.

(** One object for each half: a session of 20000 cycles from 1000, and a
    session of 4999 cycles from [2^32 - 5000]. *)
Lemma getWaitFraction_divisor_witness :
  (1 <= divisor (mkGFX false 1000 21000 7000 0 0) /\
   outcome getWaitFraction (mkGFX false 1000 21000 7000 0 0) =
     Ok (7000 / divisor (mkGFX false 1000 21000 7000 0 0),
         mkGFX false 1000 21000 7000 0 0)) /\
  divisor (mkGFX false 4294962296 4294967295 4999 0 0) = 0.
Proof.
  split.
  - refine (proj2 (proj1 (getWaitFraction_divisor
                            (mkGFX false 1000 21000 7000 0 0) _ _) _) _).
    + constructor; unfold UInt32.in_range, UInt32.modulus; simpl; lia.
    + simpl; lia.
    + simpl; lia.
    + reflexivity.
  - refine (proj1 (proj2 (proj2 (proj2 (proj2 (getWaitFraction_divisor
              (mkGFX false 4294962296 4294967295 4999 0 0) _ _) _))))).
    + constructor; unfold UInt32.in_range, UInt32.modulus; simpl; lia.
    + simpl; lia.
    + simpl; lia.
Defined.

(** ** Runs without counter wrap-around *)

(** A call [waitForFrame] whose two readings are in order and not below the
    end of the session: no session is closed, one is opened if the tally is
    zero, the wait is added to the tally. *)
Lemma waitForFrame_no_wrap waitStart waitEnd video video' g :
  0 <= _perfStart g -> _perfStart g <= _perfEnd g ->
  0 <= _waitTally g <= _perfEnd g - _perfStart g ->
  _perfEnd g <= waitStart -> waitStart <= waitEnd ->
  waitEnd < UInt32.modulus ->
  let g1 := if 0 =? _waitTally g then opened waitStart video g else g in
  waitForFrame waitStart waitEnd video video' g =
    (video_waitForFrame ::
       (if _copyAfterSwap g
        then frameCopy (getFrameBufferLines video') (getFrameBufferLines video)
        else []),
     Ok (tt, set_perfEnd waitEnd
               (set_waitTally (_waitTally g + (waitEnd - waitStart)) g1))).
Proof.
  intros Hs0 Hse Htally Hfresh Horder Hmax. cbn zeta.
  rewrite waitForFrame_run, waitForFrame_beforeSwap_run.
  destruct (Z.ltb_spec waitStart (_perfEnd g)); [ lia | ].
  assert (Hsub : UInt32.sub waitEnd waitStart = waitEnd - waitStart)
    by (apply sub_small; unfold UInt32.in_range; lia).
  destruct (Z.eqb_spec 0 (_waitTally g)) as [Hzero | Hpos];
    rewrite waitForFrame_afterSwap_run; cbn zeta;
    (destruct (Z.ltb_spec waitEnd waitStart); [ lia | ]);
    rewrite Hsub, add_small by
      (unfold UInt32.in_range; cbn [opened set_swapStart set_frameStart
         set_perfStart _waitTally]; lia);
    reflexivity.
Qed.

Lemma session_ok_new ccount0 video0 frameStart0 swapStart0 :
  UInt32.in_range ccount0 ->
  session_ok (mkConfig ccount0 video0 (ESP_8_BIT_GFX_new frameStart0 swapStart0)).
Proof. intros [H0 H1]. constructor; cbn -[UInt32.modulus]; lia. Qed.

Lemma session_ok_step c c' : session_ok c -> step c c' -> session_ok c'.
Proof.
  intros [Hse Htally Hs0 Hend Hmax] Hstep.
  destruct Hstep as [c waitStart waitEnd video' g' Hnow Horder [_ Hwmax] _ Hrun
                    | c fraction g' Hrun
                    | c ccount' video' Hnow [_ Hcmax] _].
  - unfold outcome in Hrun.
    rewrite waitForFrame_no_wrap in Hrun by lia.
    destruct (Z.eqb_spec 0 (_waitTally (gfx c))) as [Hzero | Hpos];
      cbn [snd] in Hrun; injection Hrun as <-;
      constructor; cbn -[UInt32.modulus]; lia.
  - unfold outcome in Hrun. rewrite perfData_run in Hrun.
    destruct (getWaitFraction (gfx c)) as [ev [[fr g0]|f]];
      [ | discriminate ].
    cbn [snd] in Hrun. injection Hrun as _ <-.
    constructor; cbn -[UInt32.modulus]; lia.
  - constructor; cbn -[UInt32.modulus]; lia.
Qed.

Lemma reachable_session_ok c : reachable c -> session_ok c.
Proof.
  induction 1 as [ccount0 video0 frameStart0 swapStart0 Hrange | c c' _ IH Hstep].
  - now apply session_ok_new.
  - exact (session_ok_step c c' IH Hstep).
Qed.

(** C10.  Along a run in which the cycle counter and the counters of the
    signal generator never go down, from a new object and through any
    calls of [waitForFrame] and [perfData], the object always has
    [perfEnd >= perfStart] and [perfEnd - perfStart >= waitTally].  At such
    an object [perfData] logs no error, and neither does the next
    [waitForFrame], whose readings are in order as well. *)
Theorem reachable_no_error_log c :
  reachable c ->
  _perfEnd (gfx c) >= _perfStart (gfx c) /\
  _perfEnd (gfx c) - _perfStart (gfx c) >= _waitTally (gfx c) /\
  (forall video0 e,
     In e (events (perfData video0) (gfx c)) -> is_log_e e = false) /\
  (forall waitStart waitEnd video' e,
     ccount c <= waitStart -> waitStart <= waitEnd ->
     UInt32.in_range waitEnd ->
     In e (events (waitForFrame waitStart waitEnd (video c) video') (gfx c)) ->
     is_log_e e = false).
Proof.
  intros Hreach.
  destruct (reachable_session_ok c Hreach) as [Hse Htally Hs0 Hend Hmax].
  split; [ lia | ]. split; [ lia | ]. split.
  - intros video0 e Hin.
    destruct (perfData_events video0 (gfx c)) as [Hev | [fraction Hev]];
      rewrite Hev in Hin; [ contradiction | ].
    destruct Hin as [<- | []].
    rewrite report_valid by lia. reflexivity.
  - intros waitStart waitEnd video' e Hnow Horder [_ Hwmax] Hin.
    unfold events in Hin.
    rewrite waitForFrame_no_wrap in Hin by lia.
    cbn [fst] in Hin. destruct Hin as [<- | Hin]; [ reflexivity | ].
    destruct (_copyAfterSwap (gfx c)); [ | contradiction ].
    unfold frameCopy in Hin. apply in_map_iff in Hin as (i & <- & _).
    reflexivity.
Qed.

(** The object after a first wait of 4900 cycles that started at 100. *)
Lemma reachable_no_error_log_witness :
  _perfEnd (mkGFX false 100 5000 4900 3 2) >=
    _perfStart (mkGFX false 100 5000 4900 3 2) /\
  _perfEnd (mkGFX false 100 5000 4900 3 2) -
    _perfStart (mkGFX false 100 5000 4900 3 2) >=
    _waitTally (mkGFX false 100 5000 4900 3 2).
Proof.
  assert (Hreach : reachable
            (mkConfig 5000 (mkVideo 4 3 (fun i => 256 * i))
                      (mkGFX false 100 5000 4900 3 2))).
  { apply (reachable_step
             (mkConfig 0 (mkVideo 3 2 (fun i => 256 * i))
                       (ESP_8_BIT_GFX_new 0 0))).
    - apply reachable_new. unfold UInt32.in_range, UInt32.modulus. simpl. lia.
    - apply (step_waitForFrame
               (mkConfig 0 (mkVideo 3 2 (fun i => 256 * i))
                         (ESP_8_BIT_GFX_new 0 0))
               100 5000 (mkVideo 4 3 (fun i => 256 * i))).
      + simpl. lia.
      + lia.
      + unfold UInt32.in_range, UInt32.modulus. simpl. lia.
      + unfold video_le. simpl. lia.
      + reflexivity. }
  destruct (reachable_no_error_log _ Hreach) as (H1 & H2 & _).
  exact (conj H1 H2).
Defined.

(** * Further properties *)

(** ** When [perfData] stops *)

(** The difference underflows once. *)
Lemma sub_underflow a b :
  - UInt32.modulus <= a - b < 0 ->
  UInt32.sub a b = a - b + UInt32.modulus.
Proof.
  intros H. unfold UInt32.sub, UInt32.wrap.
  symmetry. apply (Z.mod_unique (a - b) UInt32.modulus (-1)); lia.
Qed.

(** [getWaitFraction] divides by zero exactly on the sessions that started
    within the last 10000 cycles before the counter wraps and whose end is
    not before their start. *)
Lemma dividesByZero_iff g :
  UInt32.in_range (_perfStart g) -> UInt32.in_range (_perfEnd g) ->
  dividesByZero g = true <->
  UInt32.modulus - 10000 <= _perfStart g <= _perfEnd g.
Proof.
  intros [Hs0 Hs1] [He0 He1].
  pose proof modulus_eq as Hmod.
  unfold dividesByZero, guard, divisor.
  rewrite andb_true_iff, Z.gtb_lt, Z.eqb_eq, Z.div_small_iff by lia.
  destruct (Z_lt_le_dec (_perfStart g + 10000) UInt32.modulus) as [Hnowrap | Hwrap];
    [ rewrite add_small by (unfold UInt32.in_range; lia)
    | rewrite add_overflow by lia ];
    (destruct (Z_lt_le_dec (_perfEnd g) (_perfStart g)) as [Hes | Hse];
     [ rewrite sub_underflow by lia
     | rewrite sub_small by (unfold UInt32.in_range; lia) ]);
    lia.
Qed.

Lemma dividesByZero_false g :
  UInt32.in_range (_perfStart g) -> UInt32.in_range (_perfEnd g) ->
  ~ (UInt32.modulus - 10000 <= _perfStart g <= _perfEnd g) ->
  dividesByZero g = false.
Proof.
  intros Hs He Hnot. destruct (dividesByZero g) eqn:H; [ | reflexivity ].
  apply (dividesByZero_iff g Hs He) in H. contradiction.
Qed.

(** X1.  On an object with 32-bit fields [perfData] stops on a division by
    zero, before it logs or assigns anything, exactly when
    [2^32 - 10000 <= perfStart <= perfEnd].  On every other object, the ones
    with [perfEnd < perfStart] included, it returns and leaves the three
    counters zero. *)
Theorem perfData_stops_iff video g :
  fields_in_range g ->
  (2 ^ 32 - 10000 <= _perfStart g <= _perfEnd g ->
   perfData video g = ([], Crash IntegerDivideByZero)) /\
  (~ (2 ^ 32 - 10000 <= _perfStart g <= _perfEnd g) ->
   exists fraction,
     perfData video g = ([report video g fraction], Ok (fraction, closed g))).
Proof.
  intros Hrange. change (2 ^ 32) with UInt32.modulus. split.
  - intros H. apply perfData_crash. apply dividesByZero_iff; (apply Hrange || exact H).
  - intros H. rewrite perfData_ok
      by (apply dividesByZero_false; (apply Hrange || exact H)).
    eexists. reflexivity.
Qed.

(** A session opened 10000 cycles before the wrap stops [perfData]; one
    opened a cycle earlier does not. *)
Lemma perfData_stops_iff_witness :
  perfData (mkVideo 9 6 (fun i => 256 * i))
           (mkGFX false 4294957296 4294967295 4000 7 5) =
    ([], Crash IntegerDivideByZero) /\
  exists fraction,
    perfData (mkVideo 9 6 (fun i => 256 * i))
             (mkGFX false 4294957295 4294967295 4000 7 5) =
      ([report (mkVideo 9 6 (fun i => 256 * i))
               (mkGFX false 4294957295 4294967295 4000 7 5) fraction],
       Ok (fraction, closed (mkGFX false 4294957295 4294967295 4000 7 5))).
Proof.
  split.
  - refine (proj1 (perfData_stops_iff (mkVideo 9 6 (fun i => 256 * i))
                     (mkGFX false 4294957296 4294967295 4000 7 5) _) _).
    + constructor; unfold UInt32.in_range, UInt32.modulus; simpl; lia.
    + simpl; lia.
  - refine (proj2 (perfData_stops_iff (mkVideo 9 6 (fun i => 256 * i))
                     (mkGFX false 4294957295 4294967295 4000 7 5) _) _).
    + constructor; unfold UInt32.in_range, UInt32.modulus; simpl; lia.
    + simpl; lia.
Defined.

(** ** How far the fraction is from the true ratio *)

(** X2.  For a session with [0 <= waitTally <= elapsed] and
    [elapsed = perfEnd - perfStart > 10000], the value [f] of
    [getWaitFraction] is at most 19999, the object is not changed, and [f]
    brackets the ratio of wait to elapsed time in hundredths of a percent:
    [f * (elapsed - 9999) <= 10000 * waitTally < (f + 1) * elapsed].  So the
    value is never below the true ratio rounded down, and it is above 10000
    only by what rounding the divisor down adds. *)
Theorem getWaitFraction_accuracy g :
  fields_in_range g ->
  0 <= _waitTally g <= _perfEnd g - _perfStart g ->
  10000 < _perfEnd g - _perfStart g ->
  exists f,
    getWaitFraction g = ([], Ok (f, g)) /\
    0 <= f <= 19999 /\
    f * (_perfEnd g - _perfStart g - 9999) <= 10000 * _waitTally g /\
    10000 * _waitTally g < (f + 1) * (_perfEnd g - _perfStart g).
Proof.
  intros Hrange Htally Hlong.
  destruct (long_session g Hrange Hlong) as (Hguard & Hdiv & Hpos).
  exists (_waitTally g / divisor g).
  split.
  { rewrite getWaitFraction_run, Hguard.
    destruct (Z.eqb_spec (divisor g) 0); [ lia | reflexivity ]. }
  set (E := _perfEnd g - _perfStart g) in *.
  set (t := _waitTally g) in *.
  set (q := divisor g) in *.
  assert (Hq1 : 10000 * q <= E)
    by (rewrite Hdiv; apply Z.mul_div_le; lia).
  assert (Hq2 : E < 10000 * (q + 1))
    by (rewrite Hdiv; apply Z.mul_succ_div_gt; lia).
  assert (Hf1 : q * (t / q) <= t) by (apply Z.mul_div_le; lia).
  assert (Hf2 : t < q * (t / q + 1)) by (apply Z.mul_succ_div_gt; lia).
  assert (Hf0 : 0 <= t / q) by (apply Z.div_pos; lia).
  set (f := t / q) in *.
  repeat split; nia.
Qed.

(** The session of 19999 cycles spent waiting throughout: the value is
    19999. *)
Lemma getWaitFraction_accuracy_witness :
  exists f,
    getWaitFraction (mkGFX false 0 19999 19999 0 0) =
      ([], Ok (f, mkGFX false 0 19999 19999 0 0)) /\
    0 <= f <= 19999.
Proof.
  destruct (getWaitFraction_accuracy (mkGFX false 0 19999 19999 0 0))
    as (f & Hrun & Hbound & _).
  - constructor; unfold UInt32.in_range, UInt32.modulus; simpl; lia.
  - simpl; lia.
  - simpl; lia.
  - exists f. exact (conj Hrun Hbound).
Defined.

(** ** [perfData] on a session that is already closed *)

(** X3.  Two calls of [perfData] in a row: whenever the first one returns,
    the second returns 10000, logs "Waited 100.0%" with the frames counted
    from the old snapshots, and leaves the object as the first call left
    it. *)
Theorem perfData_twice video video1 g :
  fields_in_range g ->
  ~ (2 ^ 32 - 10000 <= _perfStart g <= _perfEnd g) ->
  exists fraction,
    (_ <- perfData video ;; perfData video1) g =
      ([report video g fraction;
        log_i "Waited %d.%d%%, missed %d of %d frames"
          [100; 0;
           UInt32.sub
             (UInt32.sub (getRenderedFrameCount video1) (_frameStart g))
             (UInt32.sub (getBufferSwapCount video1) (_swapStart g));
           UInt32.sub (getRenderedFrameCount video1) (_frameStart g)]],
       Ok (10000, closed g)).
Proof.
  intros Hrange Hnot. change (2 ^ 32) with UInt32.modulus in Hnot.
  unfold bind. rewrite perfData_ok
    by (apply dividesByZero_false; (apply Hrange || exact Hnot)).
  cbn zeta. eexists. reflexivity.
Qed.

Lemma perfData_twice_witness :
  outcome (_ <- perfData (mkVideo 9 6 (fun i => 256 * i)) ;;
           perfData (mkVideo 12 8 (fun i => 256 * i)))
          (mkGFX false 1000 51000 20000 7 5) =
    Ok (10000, mkGFX false 0 0 0 7 5).
Proof.
  destruct (perfData_twice (mkVideo 9 6 (fun i => 256 * i))
              (mkVideo 12 8 (fun i => 256 * i))
              (mkGFX false 1000 51000 20000 7 5)) as [fraction H].
  - constructor; unfold UInt32.in_range, UInt32.modulus; simpl; lia.
  - simpl; lia.
  - unfold outcome. rewrite H. reflexivity.
Defined.

(** ** The two error paths of [perfData] *)

(** X4.  With [perfEnd < perfStart], [perfData] never stops: it logs the
    first error and nothing else, returns a value and leaves the three
    counters zero.  The value is 10000 unless the sum in the guard of
    [getWaitFraction] wraps. *)
Theorem perfData_end_before_start video g :
  fields_in_range g ->
  _perfEnd g < _perfStart g ->
  exists fraction,
    perfData video g =
      ([log_e "Performance end time is earlier than start time."],
       Ok (fraction, closed g)) /\
    (_perfStart g <= 2 ^ 32 - 10001 -> fraction = 10000).
Proof.
  intros Hrange Hes.
  pose proof Hrange as [[Hs0 Hs1] [He0 He1] _ _ _].
  change (2 ^ 32) with UInt32.modulus. pose proof modulus_eq as Hmod.
  rewrite perfData_ok by (apply dividesByZero_false; [ apply Hrange | apply Hrange | lia ]).
  cbn zeta. eexists. split.
  - unfold report. apply Z.ltb_lt in Hes. rewrite Hes. reflexivity.
  - intros Hnowrap. unfold guard.
    rewrite add_small by (unfold UInt32.in_range; lia).
    destruct (Z.gtb_spec (_perfEnd g) (_perfStart g + 10000)); [ lia | reflexivity ].
Qed.

Lemma perfData_end_before_start_witness :
  exists fraction,
    perfData (mkVideo 9 6 (fun i => 256 * i)) (mkGFX true 500 100 3 7 5) =
      ([log_e "Performance end time is earlier than start time."],
       Ok (fraction, closed (mkGFX true 500 100 3 7 5))) /\
    fraction = 10000.
Proof.
  destruct (perfData_end_before_start (mkVideo 9 6 (fun i => 256 * i))
              (mkGFX true 500 100 3 7 5)) as (fraction & Hrun & Hval).
  - constructor; unfold UInt32.in_range, UInt32.modulus; simpl; lia.
  - simpl; lia.
  - exists fraction. split; [ exact Hrun | ]. apply Hval. simpl; lia.
Defined.

(** X5.  With [perfStart <= perfEnd], a tally above [perfEnd - perfStart]
    and a session that did not start within the last 10000 cycles before
    the wrap, [perfData] logs the second error and nothing else, leaves the
    three counters zero, and the value it returns is at least 10000. *)
Theorem perfData_duration_below_tally video g :
  fields_in_range g ->
  _perfStart g <= _perfEnd g ->
  _perfEnd g - _perfStart g < _waitTally g ->
  _perfStart g < 2 ^ 32 - 10000 ->
  exists fraction,
    perfData video g =
      ([log_e "Overall time duration is less than tally of wait times."],
       Ok (fraction, closed g)) /\
    10000 <= fraction.
Proof.
  intros Hrange Hse Htally Hclear.
  pose proof Hrange as [[Hs0 Hs1] [He0 He1] _ _ _].
  change (2 ^ 32) with UInt32.modulus in Hclear. pose proof modulus_eq as Hmod.
  rewrite perfData_ok by (apply dividesByZero_false; [ apply Hrange | apply Hrange | lia ]).
  cbn zeta. eexists. split.
  - unfold report. rewrite sub_small by (unfold UInt32.in_range; lia).
    destruct (Z.ltb_spec (_perfEnd g) (_perfStart g)); [ lia | ].
    destruct (Z.ltb_spec (_perfEnd g - _perfStart g) (_waitTally g)); [ | lia ].
    reflexivity.
  - unfold guard, divisor.
    rewrite add_small, sub_small by (unfold UInt32.in_range; lia).
    destruct (Z.gtb_spec (_perfEnd g) (_perfStart g + 10000)) as [Hlong | _];
      [ | lia ].
    apply Z.div_le_lower_bound.
    + apply Z.div_str_pos. lia.
    + pose proof (Z.mul_div_le (_perfEnd g - _perfStart g) 10000). lia.
Qed.

Lemma perfData_duration_below_tally_witness :
  exists fraction,
    perfData (mkVideo 9 6 (fun i => 256 * i))
             (mkGFX false 1000 31000 45000 7 5) =
      ([log_e "Overall time duration is less than tally of wait times."],
       Ok (fraction, closed (mkGFX false 1000 31000 45000 7 5))) /\
    10000 <= fraction.
Proof.
  apply (perfData_duration_below_tally (mkVideo 9 6 (fun i => 256 * i))
           (mkGFX false 1000 31000 45000 7 5)).
  - constructor; unfold UInt32.in_range, UInt32.modulus; simpl; lia.
  - simpl; lia.
  - simpl; lia.
  - simpl; lia.
Defined.

(** ** Calls that keep clear of the wrap *)

Lemma wrap_in_range z : UInt32.in_range (UInt32.wrap z).
Proof.
  unfold UInt32.in_range, UInt32.wrap. apply Z.mod_pos_bound. reflexivity.
Qed.

Lemma perfData_clear video g :
  clear_of_wrap g ->
  exists fraction,
    perfData video g = ([report video g fraction], Ok (fraction, closed g)) /\
    clear_of_wrap (closed g).
Proof.
  intros [Hrange Hclear].
  rewrite perfData_ok by (apply dividesByZero_false; [ apply Hrange | apply Hrange | lia ]).
  eexists. split; [ reflexivity | ].
  destruct Hrange as [Hs He Ht Hf Hw]. pose proof modulus_eq as Hmod.
  split; [ constructor | ]; cbn -[UInt32.modulus]; try assumption;
    unfold UInt32.in_range; lia.
Qed.

Lemma waitForFrame_beforeSwap_clear waitStart video g :
  clear_of_wrap g ->
  0 <= waitStart < UInt32.modulus - 10000 ->
  video_in_range video ->
  exists ev g1,
    waitForFrame_beforeSwap waitStart video g = (ev, Ok (tt, g1)) /\
    clear_of_wrap g1.
Proof.
  intros Hg Hws [Hframes Hswaps]. rewrite waitForFrame_beforeSwap_run.
  assert (Hopen : forall g0, clear_of_wrap g0 ->
                             clear_of_wrap (opened waitStart video g0)).
  { intros g0 [[Hs He Ht Hf Hw] _].
    split; [ constructor | ]; cbn -[UInt32.modulus]; try assumption;
      unfold UInt32.in_range; lia. }
  destruct (waitStart <? _perfEnd g).
  - destruct (perfData_clear video g Hg) as (fraction & -> & Hclosed).
    eexists _, _. split; [ reflexivity | ]. now apply Hopen.
  - destruct (0 =? _waitTally g); eexists _, _; (split; [ reflexivity | ]);
      [ now apply Hopen | assumption ].
Qed.

Lemma waitForFrame_afterSwap_clear oldLineArray waitStart waitEnd video' g :
  clear_of_wrap g ->
  0 <= waitStart < UInt32.modulus - 10000 ->
  UInt32.in_range waitEnd ->
  exists ev g',
    waitForFrame_afterSwap oldLineArray waitStart waitEnd video' g =
      (ev, Ok (tt, g')) /\
    clear_of_wrap g'.
Proof.
  intros [[Hs He Ht Hf Hw] Hclear] Hws Hwe.
  rewrite waitForFrame_afterSwap_run. cbn zeta.
  destruct (waitEnd <? waitStart).
  - assert (Hg1 : clear_of_wrap (set_perfEnd waitStart g)).
    { split; [ constructor | ]; cbn -[UInt32.modulus]; try assumption;
        unfold UInt32.in_range; lia. }
    destruct (perfData_clear video' _ Hg1) as (fraction & -> & Hclosed).
    eexists _, _. split; [ reflexivity | exact Hclosed ].
  - eexists _, _. split; [ reflexivity | ].
    split; [ constructor | ]; cbn -[UInt32.modulus]; try assumption.
    apply wrap_in_range.
Qed.

Lemma waitForFrame_clear waitStart waitEnd video video' g :
  clear_of_wrap g ->
  0 <= waitStart < UInt32.modulus - 10000 ->
  UInt32.in_range waitEnd ->
  video_in_range video ->
  exists g',
    outcome (waitForFrame waitStart waitEnd video video') g = Ok (tt, g') /\
    clear_of_wrap g'.
Proof.
  intros Hg Hws Hwe Hvideo. unfold outcome. rewrite waitForFrame_run.
  destruct (waitForFrame_beforeSwap_clear waitStart video g Hg Hws Hvideo)
    as (ev & g1 & -> & Hg1).
  destruct (waitForFrame_afterSwap_clear (getFrameBufferLines video)
              waitStart waitEnd video' g1 Hg1 Hws Hwe)
    as (ev' & g' & -> & Hg').
  exists g'. split; [ reflexivity | exact Hg' ].
Qed.

(** X7.  A drawing loop never stops on the division by zero as long as no
    call of [waitForFrame] reads the counter within its last 10000 cycles
    before the wrap.  From an object with 32-bit fields whose session did
    not start there, any sequence of such calls returns, whatever the
    second readings are (in order, wrapped during the wait, or stale at the
    next call), and [perfData] returns on the object they leave. *)
Theorem waitForFrames_never_stop ws video g :
  clear_of_wrap g ->
  Forall (fun w => 0 <= wStart w < 2 ^ 32 - 10000 /\
                   UInt32.in_range (wEnd w) /\
                   video_in_range (wBefore w)) ws ->
  exists g',
    outcome (waitForFrames ws) g = Ok (tt, g') /\
    fields_in_range g' /\
    exists fraction, outcome (perfData video) g' = Ok (fraction, closed g').
Proof.
  intros Hg Hws. revert g Hg.
  induction Hws as [ | w rest (Hstart & Hend & Hvideo) _ IH ]; intros g Hg.
  - exists g. split; [ reflexivity | ]. split; [ apply Hg | ].
    destruct (perfData_clear video g Hg) as (fraction & Hrun & _).
    exists fraction. unfold outcome. now rewrite Hrun.
  - change (2 ^ 32) with UInt32.modulus in Hstart.
    destruct (waitForFrame_clear (wStart w) (wEnd w) (wBefore w) (wAfter w)
                g Hg Hstart Hend Hvideo) as (g1 & Hrun & Hg1).
    destruct (IH g1 Hg1) as (g' & Hrest & Hg').
    exists g'. split; [ | exact Hg' ].
    unfold outcome in *. cbn [waitForFrames]. unfold bind.
    destruct (waitForFrame (wStart w) (wEnd w) (wBefore w) (wAfter w) g)
      as [ev [[u g1']|f]]; cbn [snd] in Hrun; [ | discriminate ].
    injection Hrun as -> ->.
    destruct (waitForFrames rest g1) as [ev' r]. exact Hrest.
Qed.

(** Three calls from a new object: a wait near the end of the counter's
    range, a call that finds that session stale, and a wait during which
    the counter wraps. *)
Lemma waitForFrames_never_stop_witness :
  exists g',
    outcome (waitForFrames
               [mkWait 4294000000 4294900000
                       (mkVideo 3 2 (fun i => 256 * i))
                       (mkVideo 4 3 (fun i => 256 * i));
                mkWait 100 7000
                       (mkVideo 9 8 (fun i => 256 * i))
                       (mkVideo 10 9 (fun i => 256 * i));
                mkWait 4293000000 50
                       (mkVideo 14 12 (fun i => 256 * i))
                       (mkVideo 15 13 (fun i => 256 * i))])
            (ESP_8_BIT_GFX_new 0 0) = Ok (tt, g') /\
    fields_in_range g'.
Proof.
  destruct (waitForFrames_never_stop
              [mkWait 4294000000 4294900000
                      (mkVideo 3 2 (fun i => 256 * i))
                      (mkVideo 4 3 (fun i => 256 * i));
               mkWait 100 7000
                      (mkVideo 9 8 (fun i => 256 * i))
                      (mkVideo 10 9 (fun i => 256 * i));
               mkWait 4293000000 50
                      (mkVideo 14 12 (fun i => 256 * i))
                      (mkVideo 15 13 (fun i => 256 * i))]
              (mkVideo 15 13 (fun i => 256 * i))
              (ESP_8_BIT_GFX_new 0 0)) as (g' & Hrun & Hrange & _).
  - split; [ constructor | ];
      unfold UInt32.in_range, UInt32.modulus; simpl; lia.
  - repeat constructor;
      unfold UInt32.in_range, UInt32.modulus; simpl; lia.
  - exists g'. exact (conj Hrun Hrange).
Defined.

(** ** The two wrap-around paths of [waitForFrame], away from the wrap *)





(** ** A session of several waits *)

Lemma waitForFrames_cons w rest g ev g1 :
  waitForFrame (wStart w) (wEnd w) (wBefore w) (wAfter w) g =
    (ev, Ok (tt, g1)) ->
  outcome (waitForFrames (w :: rest)) g = outcome (waitForFrames rest) g1.
Proof.
  intros Hrun. unfold outcome. cbn [waitForFrames]. unfold bind.
  rewrite Hrun. destruct (waitForFrames rest g1) as [ev' r]. reflexivity.
Qed.

Lemma last_end_bound t ws :
  in_order t ws -> t < UInt32.modulus ->
  t <= last_end t ws < UInt32.modulus.
Proof.
  revert t. induction ws as [ | w rest IH ]; intros t Horder Ht; cbn in *.
  - lia.
  - destruct Horder as (H1 & H2 & H3 & Hrest).
    specialize (IH (wEnd w) Hrest H3). lia.
Qed.

(** While the session is open, each call adds its wait to the tally, moves
    the end of the session and leaves the rest of the object alone. *)
Lemma waitForFrames_open ws :
  forall g,
    0 <= _perfStart g <= _perfEnd g ->
    0 < _waitTally g <= _perfEnd g - _perfStart g ->
    in_order (_perfEnd g) ws ->
    exists g',
      outcome (waitForFrames ws) g = Ok (tt, g') /\
      _perfStart g' = _perfStart g /\
      _perfEnd g' = last_end (_perfEnd g) ws /\
      _waitTally g' = _waitTally g + total_wait ws /\
      _frameStart g' = _frameStart g /\
      _swapStart g' = _swapStart g /\
      _copyAfterSwap g' = _copyAfterSwap g.
Proof.
  induction ws as [ | w rest IH ]; intros g Hse Htally Horder.
  - exists g. cbn. repeat apply conj; try reflexivity. lia.
  - destruct Horder as (H1 & H2 & H3 & Hrest).
    pose proof (waitForFrame_no_wrap (wStart w) (wEnd w) (wBefore w) (wAfter w) g)
      as Hrun.
    cbn zeta in Hrun.
    destruct (Z.eqb_spec 0 (_waitTally g)) as [Hzero | _]; [ lia | ].
    specialize (Hrun ltac:(lia) ltac:(lia) ltac:(lia) ltac:(lia) ltac:(lia)
                     ltac:(lia)).
    rewrite (waitForFrames_cons w rest g _ _ Hrun).
    destruct (IH (set_perfEnd (wEnd w)
                    (set_waitTally (_waitTally g + (wEnd w - wStart w)) g)))
      as (g' & Hrest' & Hs & He & Ht & Hf & Hw & Hc).
    + cbn. lia.
    + cbn. lia.
    + exact Hrest.
    + exists g'. cbn in Hs, He, Ht, Hf, Hw, Hc. cbn [last_end total_wait].
      repeat apply conj; try assumption. lia.
Qed.

Lemma perfData_value video g :
  0 <= _perfStart g -> _perfEnd g < UInt32.modulus ->
  10000 < _perfEnd g - _perfStart g ->
  outcome (perfData video) g =
    Ok (_waitTally g / ((_perfEnd g - _perfStart g) / 10000), closed g).
Proof.
  intros Hs He Hlong. pose proof modulus_eq as Hmod.
  assert (Hguard : guard g = true).
  { unfold guard. rewrite add_small by (unfold UInt32.in_range; lia).
    apply Z.gtb_lt. lia. }
  assert (Hdiv : divisor g = (_perfEnd g - _perfStart g) / 10000).
  { unfold divisor. now rewrite sub_small by (unfold UInt32.in_range; lia). }
  assert (Hpos : 1 <= divisor g).
  { rewrite Hdiv. apply Z.div_le_lower_bound; lia. }
  unfold outcome. rewrite perfData_ok.
  - cbn zeta. rewrite Hguard, Hdiv. reflexivity.
  - unfold dividesByZero. rewrite Hguard.
    destruct (Z.eqb_spec (divisor g) 0); [ lia | reflexivity ].
Qed.

(** X10.  A drawing loop on an object whose tally is zero: the readings of
    its calls follow one another without a wrap and the first wait takes at
    least a cycle.  Then the calls return and leave one session, which
    starts at the first reading of the first call, ends at the last reading
    of the last call, has the sum of the waits as its tally and the
    counters the signal generator had before the first swap as snapshots.
    If it is longer than 10000 cycles, [perfData] returns that sum divided
    by the whole ten-thousands of its length. *)
Theorem waitForFrames_one_session w rest video g :
  0 <= _perfStart g <= _perfEnd g ->
  _waitTally g = 0 ->
  wStart w < wEnd w ->
  in_order (_perfEnd g) (w :: rest) ->
  exists g',
    outcome (waitForFrames (w :: rest)) g = Ok (tt, g') /\
    _perfStart g' = wStart w /\
    _perfEnd g' = last_end (wEnd w) rest /\
    _waitTally g' = total_wait (w :: rest) /\
    _frameStart g' = getRenderedFrameCount (wBefore w) /\
    _swapStart g' = getBufferSwapCount (wBefore w) /\
    (10000 < last_end (wEnd w) rest - wStart w ->
     outcome (perfData video) g' =
       Ok (total_wait (w :: rest) /
             ((last_end (wEnd w) rest - wStart w) / 10000),
           closed g')).
Proof.
  intros Hse Hzero Hpos (H1 & H2 & H3 & Hrest).
  pose proof (waitForFrame_no_wrap (wStart w) (wEnd w) (wBefore w) (wAfter w) g)
    as Hrun.
  cbn zeta in Hrun.
  destruct (Z.eqb_spec 0 (_waitTally g)) as [_ | Hne]; [ | lia ].
  specialize (Hrun ltac:(lia) ltac:(lia) ltac:(lia) ltac:(lia) ltac:(lia)
                   ltac:(lia)).
  rewrite (waitForFrames_cons w rest g _ _ Hrun).
  destruct (waitForFrames_open rest
              (set_perfEnd (wEnd w)
                 (set_waitTally (_waitTally g + (wEnd w - wStart w))
                    (opened (wStart w) (wBefore w) g))))
    as (g' & Hrun' & Hs & He & Ht & Hf & Hw & _).
  - cbn. lia.
  - cbn. lia.
  - exact Hrest.
  - cbn in Hs, He, Ht, Hf, Hw. exists g'.
    assert (Htotal : _waitTally g' = total_wait (w :: rest))
      by (cbn [total_wait]; lia).
    repeat apply conj; try assumption.
    intros Hlong. rewrite <- Htotal, <- He, <- Hs.
    pose proof (last_end_bound (wEnd w) rest Hrest H3) as Hbound.
    apply perfData_value; lia.
Qed.

(** Three frames: waits of 3000, 9000 and 18000 cycles in a session of
    100000 cycles, 30.00% of it. *)
Lemma waitForFrames_one_session_witness :
  exists g',
    outcome (waitForFrames
               [mkWait 1000 4000 (mkVideo 3 2 (fun i => 256 * i))
                                 (mkVideo 4 3 (fun i => 256 * i));
                mkWait 31000 40000 (mkVideo 5 3 (fun i => 256 * i))
                                   (mkVideo 6 4 (fun i => 256 * i));
                mkWait 83000 101000 (mkVideo 8 4 (fun i => 256 * i))
                                    (mkVideo 9 5 (fun i => 256 * i))])
            (ESP_8_BIT_GFX_new 0 0) = Ok (tt, g') /\
    outcome (perfData (mkVideo 9 5 (fun i => 256 * i))) g' =
      Ok (3000, closed g').
Proof.
  destruct (waitForFrames_one_session
              (mkWait 1000 4000 (mkVideo 3 2 (fun i => 256 * i))
                                (mkVideo 4 3 (fun i => 256 * i)))
              [mkWait 31000 40000 (mkVideo 5 3 (fun i => 256 * i))
                                  (mkVideo 6 4 (fun i => 256 * i));
               mkWait 83000 101000 (mkVideo 8 4 (fun i => 256 * i))
                                   (mkVideo 9 5 (fun i => 256 * i))]
              (mkVideo 9 5 (fun i => 256 * i))
              (ESP_8_BIT_GFX_new 0 0))
    as (g' & Hrun & _ & _ & _ & _ & _ & Hperf).
  - simpl; lia.
  - reflexivity.
  - simpl; lia.
  - unfold in_order, UInt32.modulus.
    cbn [wStart wEnd _perfEnd ESP_8_BIT_GFX_new]. lia.
  - exists g'. split; [ exact Hrun | ]. apply Hperf.
    cbn [last_end wStart wEnd]. lia.
Defined.

(** X11.  The session is recognised by its tally alone.  A call whose two
    readings are equal adds nothing to a tally of zero, so the next call
    starts the session again: the object it leaves has the readings of the
    second call as its bounds, whatever the session was before, and the
    cycles between the two calls are in no session. *)
Theorem waitForFrame_zero_wait_restarts
    t waitStart waitEnd video1 video1' video video' g :
  0 <= _perfStart g <= _perfEnd g ->
  _waitTally g = 0 ->
  _perfEnd g <= t -> t <= waitStart -> waitStart <= waitEnd ->
  waitEnd < 2 ^ 32 ->
  outcome (waitForFrame t t video1 video1' ;;
           waitForFrame waitStart waitEnd video video') g =
    Ok (tt, mkGFX (_copyAfterSwap g) waitStart waitEnd (waitEnd - waitStart)
                  (getRenderedFrameCount video) (getBufferSwapCount video)).
Proof.
  intros Hse Hzero Hend Ht Hws Hwe.
  change (2 ^ 32) with UInt32.modulus in Hwe.
  pose proof (waitForFrame_no_wrap t t video1 video1' g) as Hfirst.
  cbn zeta in Hfirst.
  destruct (Z.eqb_spec 0 (_waitTally g)) as [_ | Hne]; [ | lia ].
  specialize (Hfirst ltac:(lia) ltac:(lia) ltac:(lia) ltac:(lia) ltac:(lia)
                     ltac:(lia)).
  replace (_waitTally g + (t - t)) with 0 in Hfirst by lia.
  unfold outcome, bind at 1. rewrite Hfirst.
  rewrite waitForFrame_no_wrap by (cbn -[UInt32.modulus]; lia).
  cbn. reflexivity.
Qed.

Lemma waitForFrame_zero_wait_restarts_witness :
  outcome (waitForFrame 5000 5000 (mkVideo 3 2 (fun i => 256 * i))
                                  (mkVideo 4 3 (fun i => 256 * i)) ;;
           waitForFrame 900000 950000 (mkVideo 20 9 (fun i => 256 * i))
                                      (mkVideo 21 10 (fun i => 256 * i)))
          (ESP_8_BIT_GFX_new 0 0) =
    Ok (tt, mkGFX false 900000 950000 50000 20 9).
Proof.
  apply (waitForFrame_zero_wait_restarts 5000 900000 950000
           (mkVideo 3 2 (fun i => 256 * i)) (mkVideo 4 3 (fun i => 256 * i))
           (mkVideo 20 9 (fun i => 256 * i)) (mkVideo 21 10 (fun i => 256 * i))
           (ESP_8_BIT_GFX_new 0 0)); simpl; lia.
Defined.

(** ** What the copies do to the frame buffer *)

Lemma run_events_app ev ev' m :
  run_events (ev ++ ev') m = run_events ev' (run_events ev m).
Proof. apply fold_left_app. Qed.

(** Calls other than [memcpy] leave memory as it is. *)
Lemma run_events_no_memcpy ev :
  forall m, memcpys ev = [] -> run_events ev m = m.
Proof.
  induction ev as [ | e ev IH ]; intros m Hnone; [ reflexivity | ].
  destruct e; cbn in Hnone; try discriminate; cbn; now apply IH.
Qed.

Lemma chunkIndices_range i : In i chunkIndices <-> 0 <= i < 15.
Proof.
  split.
  - cbn. intuition lia.
  - intros Hi.
    assert (Hcases : i = 0 \/ i = 1 \/ i = 2 \/ i = 3 \/ i = 4 \/ i = 5 \/
                     i = 6 \/ i = 7 \/ i = 8 \/ i = 9 \/ i = 10 \/
                     i = 11 \/ i = 12 \/ i = 13 \/ i = 14) by lia.
    cbn. intuition lia.
Qed.

Lemma chunkIndices_NoDup : NoDup chunkIndices.
Proof.
  unfold chunkIndices.
  repeat (constructor; [ cbn; intuition lia | ]). constructor.
Qed.

Lemma do_memcpy_outside dst src n m a :
  ~ (dst <= a < dst + n) -> do_memcpy dst src n m a = m a.
Proof.
  intros Hout. unfold do_memcpy.
  destruct (Z.leb_spec dst a); destruct (Z.ltb_spec a (dst + n));
    cbn; (reflexivity || lia).
Qed.

Lemma do_memcpy_inside dst src n m k :
  0 <= k < n -> do_memcpy dst src n m (dst + k) = m (src + k).
Proof.
  intros Hk. unfold do_memcpy.
  destruct (Z.leb_spec dst (dst + k)); [ | lia ].
  destruct (Z.ltb_spec (dst + k) (dst + n)); [ | lia ].
  cbn. f_equal. lia.
Qed.

(** An address in none of the destination chunks keeps its byte. *)
Lemma run_copies_outside newLineArray oldLineArray chunks a :
  forall m,
    (forall i, In i chunks ->
       ~ (newLineArray (16 * i) <= a < newLineArray (16 * i) + 4096)) ->
    run_events (map (chunkCopy newLineArray oldLineArray) chunks) m a = m a.
Proof.
  induction chunks as [ | h rest IH ]; intros m Hout; [ reflexivity | ].
  cbn [map run_events fold_left effect chunkCopy].
  change (fold_left effect ?l ?m0) with (run_events l m0).
  rewrite IH by (intros i Hi; apply Hout; now right).
  apply do_memcpy_outside. apply Hout. now left.
Qed.

(** Byte [k] of destination chunk [i] ends up holding what byte [k] of
    source chunk [i] held before the copies. *)
Lemma run_copies_inside newLineArray oldLineArray chunks i k :
  chunks_apart newLineArray oldLineArray ->
  chunks_distinct newLineArray ->
  NoDup chunks -> (forall j, In j chunks -> 0 <= j < 15) ->
  In i chunks -> 0 <= k < 4096 ->
  forall m,
    run_events (map (chunkCopy newLineArray oldLineArray) chunks) m
               (newLineArray (16 * i) + k) =
      m (oldLineArray (16 * i) + k).
Proof.
  intros Hapart Hdistinct.
  induction chunks as [ | h rest IH ]; intros Hnodup Hrange Hin Hk m;
    [ contradiction | ].
  inversion Hnodup as [ | h' rest' Hnotin Hnodup' ]; subst.
  assert (Hh : 0 <= h < 15) by (apply Hrange; now left).
  assert (Hrest : forall j, In j rest -> 0 <= j < 15)
    by (intros j Hj; apply Hrange; now right).
  cbn [map run_events fold_left effect chunkCopy].
  change (fold_left effect ?l ?m0) with (run_events l m0).
  destruct Hin as [-> | Hin].
  - rewrite run_copies_outside.
    + now apply do_memcpy_inside.
    + intros j Hj Hinside.
      assert (Hne : j <> i) by (intros ->; contradiction).
      apply (Hdistinct j i (newLineArray (16 * i) + k - newLineArray (16 * j)) k);
        try lia. now apply Hrest.
  - rewrite (IH Hnodup' Hrest Hin Hk).
    apply do_memcpy_outside. intros Hinside.
    assert (Hi : 0 <= i < 15) by now apply Hrest.
    apply (Hapart h i (oldLineArray (16 * i) + k - newLineArray (16 * h)) k);
      lia.
Qed.

(** The calls of [waitForFrame] around the blocking call. *)
Lemma waitForFrame_events_split waitStart waitEnd video video' g :
  In video_waitForFrame (events (waitForFrame waitStart waitEnd video video') g) ->
  exists before after,
    events (waitForFrame waitStart waitEnd video video') g =
      before ++ [video_waitForFrame] ++
      (if _copyAfterSwap g
       then frameCopy (getFrameBufferLines video') (getFrameBufferLines video)
       else []) ++ after /\
    memcpys before = [] /\ memcpys after = [].
Proof.
  unfold events. rewrite waitForFrame_run.
  pose proof (waitForFrame_beforeSwap_events waitStart video g) as [Hnocopy Hnowait].
  cbn zeta in Hnocopy, Hnowait.
  destruct (waitForFrame_beforeSwap waitStart video g) as [before [[u g1]|f]] eqn:Hbefore;
    cbn [fst] in Hnocopy, Hnowait.
  - intros _.
    pose proof (waitForFrame_beforeSwap_flag _ _ _ _ _ _ Hbefore) as Hflag.
    destruct (waitForFrame_afterSwap_events (getFrameBufferLines video)
                waitStart waitEnd video' g1) as (after & Hafter & Hafter0).
    destruct (waitForFrame_afterSwap _ _ _ _ g1) as [ev' r].
    cbn [fst] in Hafter |- *. subst ev'. rewrite Hflag.
    exists before, after. repeat split; assumption.
  - intros Hin. now apply Hnowait in Hin.
Qed.

(** X12.  Both tables follow the layout of 15 chunks of 16 rows of 256
    bytes, the chunks of the new table share no byte with one another nor
    with the chunks of the old table.  Then a call [waitForFrame] that gets
    to the blocking call with the flag set leaves every pixel of the old
    back buffer, row 0 to 239 and column 0 to 255, in the same row and
    column of the new one, and changes no byte outside the new buffer.
    With the flag clear it changes no byte at all. *)
Theorem waitForFrame_copies_frame waitStart waitEnd video video' g m :
  let oldLineArray := getFrameBufferLines video in
  let newLineArray := getFrameBufferLines video' in
  let ev := events (waitForFrame waitStart waitEnd video video') g in
  chunked oldLineArray -> chunked newLineArray ->
  chunks_apart newLineArray oldLineArray ->
  chunks_distinct newLineArray ->
  In video_waitForFrame ev ->
  (_copyAfterSwap g = true ->
   (forall row x, 0 <= row < 240 -> 0 <= x < 256 ->
      run_events ev m (newLineArray row + x) = m (oldLineArray row + x)) /\
   (forall a,
      (forall i k, 0 <= i < 15 -> 0 <= k < 4096 ->
         a <> newLineArray (16 * i) + k) ->
      run_events ev m a = m a)) /\
  (_copyAfterSwap g = false -> forall a, run_events ev m a = m a).
Proof.
  cbn zeta. intros Hold Hnew Hapart Hdistinct Hwait.
  destruct (waitForFrame_events_split _ _ _ _ _ Hwait)
    as (before & after & -> & Hbefore & Hafter).
  rewrite !run_events_app.
  rewrite (run_events_no_memcpy before m Hbefore).
  rewrite (run_events_no_memcpy after _ Hafter).
  cbn [run_events fold_left effect].
  change (fold_left effect ?l ?m0) with (run_events l m0).
  split; [ intros -> | intros ->; reflexivity ].
  split.
  - intros row x Hrow Hx.
    pose proof (Z.div_mod row 16 ltac:(lia)) as Hsplit.
    pose proof (Z.mod_pos_bound row 16 ltac:(lia)) as Hj.
    assert (Hi : 0 <= row / 16 < 15).
    { split; [ apply Z.div_pos; lia | apply Z.div_lt_upper_bound; lia ]. }
    rewrite Hsplit at 1 2.
    rewrite (Hnew _ _ Hi Hj), (Hold _ _ Hi Hj).
    rewrite <- !Z.add_assoc.
    apply run_copies_inside; try assumption.
    + apply chunkIndices_NoDup.
    + intros j. apply chunkIndices_range.
    + now apply chunkIndices_range.
    + lia.
  - intros a Hout. apply run_copies_outside.
    intros i Hi Hinside. apply chunkIndices_range in Hi.
    apply (Hout i (a - getFrameBufferLines video' (16 * i))); lia.
Qed.

(** Two buffers of 15 chunks of 4096 bytes each, the old one at 1000000 and
    the new one at 2000000; the byte at row 100, column 7. *)
Lemma waitForFrame_copies_frame_witness :
  run_events
    (events (waitForFrame 100 5000
               (mkVideo 3 2 (fun i => 1000000 + 256 * i))
               (mkVideo 4 3 (fun i => 2000000 + 256 * i)))
            (mkGFX true 0 0 0 0 0))
    (fun a => a mod 251) (2000000 + 256 * 100 + 7) =
  (1000000 + 256 * 100 + 7) mod 251.
Proof.
  refine (proj1 (proj1 (waitForFrame_copies_frame 100 5000
                          (mkVideo 3 2 (fun i => 1000000 + 256 * i))
                          (mkVideo 4 3 (fun i => 2000000 + 256 * i))
                          (mkGFX true 0 0 0 0 0) (fun a => a mod 251)
                          _ _ _ _ _) eq_refl)
                100 7 _ _).
  - unfold chunked. cbn [getFrameBufferLines]. intros i j Hi Hj. lia.
  - unfold chunked. cbn [getFrameBufferLines]. intros i j Hi Hj. lia.
  - unfold chunks_apart. cbn [getFrameBufferLines].
    intros i i' k k' Hi Hi' Hk Hk'. lia.
  - unfold chunks_distinct. cbn [getFrameBufferLines].
    intros i i' k k' Hi Hi' Hne Hk Hk'. lia.
  - simpl. left. reflexivity.
  - lia.
  - lia.
Defined.

(** ** Short sessions *)

(** A session of 400 cycles. *)
Lemma perfData_short_session_witness :
  outcome (perfData (mkVideo 9 6 (fun i => 256 * i)))
          (mkGFX false 5000 5400 150 7 5) =
    Ok (10000, mkGFX false 0 0 0 7 5).
Proof.
  apply (perfData_short_session (mkVideo 9 6 (fun i => 256 * i))
           (mkGFX false 5000 5400 150 7 5)).
  - constructor; unfold UInt32.in_range, UInt32.modulus; simpl; lia.
  - unfold UInt32.modulus; simpl; lia.
  - simpl; lia.
  - simpl; lia.
Defined.

(** ** The value of [perfData] along a run without wrap-around *)

Lemma quotient_bound t E q :
  1 <= q -> 10000 * q <= E < 10000 * (q + 1) -> 0 <= t <= E ->
  0 <= t / q <= 19999.
Proof.
  intros Hq HE Ht.
  assert (Hf1 : q * (t / q) <= t) by (apply Z.mul_div_le; lia).
  assert (Hf0 : 0 <= t / q) by (apply Z.div_pos; lia).
  split; [ exact Hf0 | nia ].
Qed.

(** X13.  At every object reached in a run without wrap-around of the
    cycle counter, [perfData] either returns a value between 0 and 19999
    and leaves the three counters zero, which it does whenever the session
    started more than 10000 cycles before the wrap, or stops on the
    division by zero, which it does whenever the session started within
    the last 10000 cycles. *)
Theorem reachable_perfData c video0 :
  reachable c ->
  (_perfStart (gfx c) < 2 ^ 32 - 10000 ->
   exists fraction,
     outcome (perfData video0) (gfx c) = Ok (fraction, closed (gfx c)) /\
     0 <= fraction <= 19999) /\
  (2 ^ 32 - 10000 <= _perfStart (gfx c) ->
   outcome (perfData video0) (gfx c) = Crash IntegerDivideByZero).
Proof.
  intros Hreach.
  destruct (reachable_session_ok c Hreach) as [Hse Htally Hs0 Hend Hmax].
  change (2 ^ 32) with UInt32.modulus. pose proof modulus_eq as Hmod.
  assert (Hs : UInt32.in_range (_perfStart (gfx c)))
    by (unfold UInt32.in_range; lia).
  assert (He : UInt32.in_range (_perfEnd (gfx c)))
    by (unfold UInt32.in_range; lia).
  split.
  - intros Hclear. unfold outcome.
    rewrite perfData_ok by (apply dividesByZero_false; (assumption || lia)).
    cbn zeta. eexists. split; [ reflexivity | ].
    unfold guard, divisor.
    rewrite add_small, sub_small by (unfold UInt32.in_range; lia).
    destruct (Z.gtb_spec (_perfEnd (gfx c)) (_perfStart (gfx c) + 10000))
      as [Hlong | _]; [ | lia ].
    apply (quotient_bound _ (_perfEnd (gfx c) - _perfStart (gfx c))).
    + apply Z.div_le_lower_bound; lia.
    + split; [ apply Z.mul_div_le; lia | ].
      apply (Z.mul_succ_div_gt (_perfEnd (gfx c) - _perfStart (gfx c)) 10000).
      lia.
    + lia.
  - intros Hnear. unfold outcome.
    rewrite perfData_crash; [ reflexivity | ].
    apply dividesByZero_iff; (assumption || lia).
Qed.

(** The object after a first wait of 19999 cycles that started at 0. *)
Lemma reachable_perfData_witness :
  exists fraction,
    outcome (perfData (mkVideo 4 3 (fun i => 256 * i)))
            (mkGFX false 0 19999 19999 3 2) =
      Ok (fraction, closed (mkGFX false 0 19999 19999 3 2)) /\
    0 <= fraction <= 19999.
Proof.
  assert (Hreach : reachable
            (mkConfig 19999 (mkVideo 4 3 (fun i => 256 * i))
                      (mkGFX false 0 19999 19999 3 2))).
  { apply (reachable_step
             (mkConfig 0 (mkVideo 3 2 (fun i => 256 * i))
                       (ESP_8_BIT_GFX_new 0 0))).
    - apply reachable_new. unfold UInt32.in_range, UInt32.modulus. simpl. lia.
    - apply (step_waitForFrame
               (mkConfig 0 (mkVideo 3 2 (fun i => 256 * i))
                         (ESP_8_BIT_GFX_new 0 0))
               0 19999 (mkVideo 4 3 (fun i => 256 * i))).
      + simpl. lia.
      + lia.
      + unfold UInt32.in_range, UInt32.modulus. simpl. lia.
      + unfold video_le. simpl. lia.
      + reflexivity. }
  apply (proj1 (reachable_perfData _ (mkVideo 4 3 (fun i => 256 * i)) Hreach)).
  simpl. lia.
Defined.

(** ** The flag *)

Lemma waitForFrame_flag waitStart waitEnd video video' g ev u g' :
  waitForFrame waitStart waitEnd video video' g = (ev, Ok (u, g')) ->
  _copyAfterSwap g' = _copyAfterSwap g.
Proof.
  rewrite waitForFrame_run.
  destruct (waitForFrame_beforeSwap waitStart video g) as [ev0 [[u0 g1]|f]] eqn:Hbefore;
    [ | discriminate ].
  rewrite <- (waitForFrame_beforeSwap_flag _ _ _ _ _ _ Hbefore).
  rewrite waitForFrame_afterSwap_run. cbn zeta.
  destruct (waitEnd <? waitStart).
  - destruct (perfData video' (set_perfEnd waitStart g1))
      as [ev1 [[fraction g2]|f]] eqn:Hperf; [ | discriminate ].
    intros [= _ _ <-]. exact (perfData_flag _ _ _ _ _ Hperf).
  - intros [= _ _ <-]. reflexivity.
Qed.

Lemma waitForFrame_no_copy waitStart waitEnd video video' g :
  _copyAfterSwap g = false ->
  memcpys (events (waitForFrame waitStart waitEnd video video') g) = [].
Proof.
  intros Hflag. unfold events. rewrite waitForFrame_run.
  pose proof (waitForFrame_beforeSwap_events waitStart video g) as [Hnocopy _].
  cbn zeta in Hnocopy.
  destruct (waitForFrame_beforeSwap waitStart video g) as [before [[u g1]|f]] eqn:Hbefore;
    cbn [fst] in Hnocopy; [ | exact Hnocopy ].
  pose proof (waitForFrame_beforeSwap_flag _ _ _ _ _ _ Hbefore) as Hflag1.
  destruct (waitForFrame_afterSwap_events (getFrameBufferLines video)
              waitStart waitEnd video' g1) as (after & Hafter & Hafter0).
  destruct (waitForFrame_afterSwap _ _ _ _ g1) as [ev' r].
  cbn [fst] in Hafter |- *. subst ev'. rewrite Hflag1, Hflag.
  change (before ++ video_waitForFrame :: ?l)
    with (before ++ [video_waitForFrame] ++ l).
  rewrite !memcpys_app, Hnocopy, Hafter0. reflexivity.
Qed.

(** X14.  [waitForFrame] reads the flag and never writes it: after any
    sequence of calls that returns, the flag is as it was; and if it was
    clear, as the constructor leaves it, none of the calls has copied
    anything, whether the sequence returns or stops. *)
Theorem waitForFrames_flag ws :
  forall g,
    (forall g', outcome (waitForFrames ws) g = Ok (tt, g') ->
                _copyAfterSwap g' = _copyAfterSwap g) /\
    (_copyAfterSwap g = false ->
     memcpys (events (waitForFrames ws) g) = []).
Proof.
  induction ws as [ | w rest IH ]; intros g.
  - split; [ intros g' [= <-] | intros _ ]; reflexivity.
  - unfold outcome, events. cbn [waitForFrames]. unfold bind.
    pose proof (waitForFrame_no_copy (wStart w) (wEnd w) (wBefore w) (wAfter w) g)
      as Hnocopy.
    unfold events in Hnocopy.
    destruct (waitForFrame (wStart w) (wEnd w) (wBefore w) (wAfter w) g)
      as [ev [[u g1]|f]] eqn:Hrun; cbn [fst] in Hnocopy.
    + pose proof (waitForFrame_flag _ _ _ _ _ _ _ _ Hrun) as Hflag.
      destruct (IH g1) as [IHflag IHcopy].
      unfold outcome, events in IHflag, IHcopy.
      destruct (waitForFrames rest g1) as [ev' r]. cbn [fst snd] in *.
      split.
      * intros g' Hg'. rewrite <- Hflag. now apply IHflag.
      * intros Hclear. rewrite memcpys_app, (Hnocopy Hclear).
        apply IHcopy. now rewrite Hflag.
    + cbn [fst snd]. split; [ discriminate | exact Hnocopy ].
Qed.

Lemma waitForFrames_flag_witness :
  memcpys (events (waitForFrames
                     [mkWait 1000 4000 (mkVideo 3 2 (fun i => 256 * i))
                                       (mkVideo 4 3 (fun i => 256 * i));
                      mkWait 31000 40000 (mkVideo 5 3 (fun i => 256 * i))
                                         (mkVideo 6 4 (fun i => 256 * i))])
                  (ESP_8_BIT_GFX_new 0 0)) = [].
Proof.
  exact (proj2 (waitForFrames_flag
                  [mkWait 1000 4000 (mkVideo 3 2 (fun i => 256 * i))
                                    (mkVideo 4 3 (fun i => 256 * i));
                   mkWait 31000 40000 (mkVideo 5 3 (fun i => 256 * i))
                                      (mkVideo 6 4 (fun i => 256 * i))]
                  (ESP_8_BIT_GFX_new 0 0)) eq_refl).
Defined.

(** ** [perfData] on a new object *)

(** X15.  Called on an object just constructed, [perfData] returns 10000
    and logs "Waited 100.0%" with frame numbers counted from [_frameStart]
    and [_swapStart], which the constructor has not assigned: the numbers
    in the line are the counters of the signal generator minus whatever
    the two fields held, and two objects that differ only there log
    different lines. *)
Theorem perfData_new_object video frameStart0 swapStart0 :
  perfData video (ESP_8_BIT_GFX_new frameStart0 swapStart0) =
    ([log_i "Waited %d.%d%%, missed %d of %d frames"
        [100; 0;
         UInt32.sub (UInt32.sub (getRenderedFrameCount video) frameStart0)
                    (UInt32.sub (getBufferSwapCount video) swapStart0);
         UInt32.sub (getRenderedFrameCount video) frameStart0]],
     Ok (10000, ESP_8_BIT_GFX_new frameStart0 swapStart0)) /\
  events (perfData video) (ESP_8_BIT_GFX_new 0 0) <>
  events (perfData video) (ESP_8_BIT_GFX_new 1 0).
Proof.
  split; [ reflexivity | ].
  unfold events. cbn -[UInt32.sub]. intros H. injection H as _ H.
  unfold UInt32.sub, UInt32.wrap in H.
  pose proof modulus_eq as Hmod.
  assert (Hone : (getRenderedFrameCount video - 0
                  - (getRenderedFrameCount video - 1)) mod UInt32.modulus = 0).
  { rewrite Zminus_mod, H, Z.sub_diag. reflexivity. }
  replace (getRenderedFrameCount video - 0 - (getRenderedFrameCount video - 1))
    with 1 in Hone by lia.
  discriminate Hone.
Qed.
